(** * Dar's Design Lab: stage controller, project archive and refinement ledger

    A shallow embedding of the application logic of the Dar Design Lab web
    client (App.tsx, the step components and services/gemini.ts), followed by
    the properties of the behavioural specification that were checked
    against it.

    Conventions of the embedding.
    - A JavaScript string is a [string]; a code unit is a character.
    - [crypto.randomUUID()], [Date.now()] and [new Date()] are inputs of the
      function that calls them.
    - A React state cell is a field of a record; [setX (prev => f prev)] is
      the update [f] applied to the cell when the update is processed, while
      a variable read from the render closure is the value the cell had when
      the handler was invoked.  Handlers run to their first [await] without
      interruption (one event loop), and React renders between two events.
    - The external generation service is an oracle: each call is given the
      result ([ApiResult]) it settles with. *)

From Stdlib Require Import List String Ascii ZArith NArith Bool Lia DecimalString.
Import ListNotations.
Open Scope string_scope.

(* ================================================================= *)
(** ** JavaScript primitives *)

Module JS.

(** Result of evaluating code that may throw. *)
Inductive completion (A : Type) : Type :=
| Normal (a : A)
| Throw (error : string).
Arguments Normal {A} a.
Arguments Throw {A} error.

(** A settled promise. *)
Inductive settled (A : Type) : Type :=
| Fulfilled (a : A)
| Rejected (reason : string).
Arguments Fulfilled {A} a.
Arguments Rejected {A} reason.

(** [await p] inside [try]: a rejection becomes a throw. *)
Definition await {A} (p : settled A) : completion A :=
  match p with
  | Fulfilled a => Normal a
  | Rejected e => Throw e
  end.

(** [Promise.all]: fulfilled with all values, in the order of the array,
    when every member is fulfilled; rejected as soon as one member is.
    (Which reason wins when several reject depends on timing; the first in
    array order is taken here, and nothing below depends on it.) *)
Fixpoint Promise_all {A} (ps : list (settled A)) : settled (list A) :=
  match ps with
  | [] => Fulfilled []
  | Rejected e :: _ => Rejected e
  | Fulfilled a :: rest =>
      match Promise_all rest with
      | Fulfilled l => Fulfilled (a :: l)
      | Rejected e => Rejected e
      end
  end.

(** Truthiness of a string: every string but the empty one. *)
Definition truthy (s : string) : bool :=
  match s with
  | EmptyString => false
  | String _ _ => true
  end.

(** Truthiness of an optional ([string | undefined]) property. *)
Definition truthy_opt (o : option string) : bool :=
  match o with
  | Some s => truthy s
  | None => false
  end.

(** [a || b] on an optional string with a string default. *)
Definition or_else (o : option string) (d : string) : string :=
  match o with
  | Some s => if truthy s then s else d
  | None => d
  end.

(** White space and line terminators removed by [String.prototype.trim],
    among the code units below 256. *)
Definition is_white_space (c : ascii) : bool :=
  match N_of_ascii c with
  | 9%N | 10%N | 11%N | 12%N | 13%N | 32%N | 160%N => true
  | _ => false
  end.

Fixpoint trimStart (s : string) : string :=
  match s with
  | EmptyString => EmptyString
  | String c r => if is_white_space c then trimStart r else s
  end.

Fixpoint rev_append (s acc : string) : string :=
  match s with
  | EmptyString => acc
  | String c r => rev_append r (String c acc)
  end.

Definition reverse (s : string) : string := rev_append s EmptyString.

Definition trimEnd (s : string) : string := reverse (trimStart (reverse s)).

Definition trim (s : string) : string := trimEnd (trimStart s).

(** [Array.prototype.find] used as a condition: the element found is an
    object, hence truthy. *)
Definition found {A} (o : option A) : bool :=
  match o with
  | Some _ => true
  | None => false
  end.

End JS.

Import JS.

(* ================================================================= *)
(** ** JSON.parse *)

Module JSON.

(** Parsed JSON values.  A number keeps its lexeme, a string its code
    units. *)
#[warnings="-register-all"]
Inductive value : Type :=
| JNull
| JBool (b : bool)
| JNumber (lexeme : string)
| JString (units : list N)
| JArray (elements : list value)
| JObject (members : list (list N * value)).

Definition is_ws (c : ascii) : bool :=
  match N_of_ascii c with
  | 9%N | 10%N | 13%N | 32%N => true
  | _ => false
  end.

Fixpoint skip_ws (cs : list ascii) : list ascii :=
  match cs with
  | [] => []
  | c :: r => if is_ws c then skip_ws r else cs
  end.

Definition is_digit (c : ascii) : bool :=
  let n := N_of_ascii c in ((48 <=? n) && (n <=? 57))%N.

Definition hex_digit (c : ascii) : option N :=
  let n := N_of_ascii c in
  if ((48 <=? n) && (n <=? 57))%N then Some (n - 48)%N
  else if ((65 <=? n) && (n <=? 70))%N then Some (n - 55)%N
  else if ((97 <=? n) && (n <=? 102))%N then Some (n - 87)%N
  else None.

Definition hex4 (a b c d : ascii) : option N :=
  match hex_digit a, hex_digit b, hex_digit c, hex_digit d with
  | Some x, Some y, Some z, Some w => Some (((x * 16 + y) * 16 + z) * 16 + w)%N
  | _, _, _, _ => None
  end.

(** The code unit denoted by a one-character escape. *)
Definition simple_escape (c : ascii) : option N :=
  match N_of_ascii c with
  | 34%N => Some 34%N      (* quotation mark *)
  | 92%N => Some 92%N      (* reverse solidus *)
  | 47%N => Some 47%N      (* solidus *)
  | 98%N => Some 8%N       (* b: backspace *)
  | 102%N => Some 12%N     (* f: form feed *)
  | 110%N => Some 10%N     (* n: line feed *)
  | 114%N => Some 13%N     (* r: carriage return *)
  | 116%N => Some 9%N      (* t: tab *)
  | _ => None
  end.

(** The characters of a string literal after its opening quote. *)
Fixpoint string_body (cs : list ascii) (acc : list N) : option (list N * list ascii) :=
  match cs with
  | [] => None
  | c :: r =>
      if (N_of_ascii c =? 34)%N then Some (rev acc, r)
      else if (N_of_ascii c =? 92)%N then
        match r with
        | [] => None
        | e :: r1 =>
            match simple_escape e with
            | Some n => string_body r1 (n :: acc)
            | None =>
                if (N_of_ascii e =? 117)%N then
                  match r1 with
                  | h1 :: h2 :: h3 :: h4 :: r2 =>
                      match hex4 h1 h2 h3 h4 with
                      | Some n => string_body r2 (n :: acc)
                      | None => None
                      end
                  | _ => None
                  end
                else None
            end
        end
      else if (N_of_ascii c <? 32)%N then None
      else string_body r (N_of_ascii c :: acc)
  end.

Fixpoint span_digits (cs : list ascii) : list ascii * list ascii :=
  match cs with
  | c :: r =>
      if is_digit c then let '(ds, rest) := span_digits r in (c :: ds, rest)
      else ([], cs)
  | [] => ([], [])
  end.

Definition char_is (c : ascii) (n : N) : bool := (N_of_ascii c =? n)%N.

(** number = [-] int [frac] [exp] *)
Definition number (cs : list ascii) : option (list ascii * list ascii) :=
  let '(sign, cs1) :=
    match cs with
    | c :: r => if char_is c 45 then ([c], r) else ([], cs)
    | [] => ([], cs)
    end in
  let int_part :=
    match cs1 with
    | c :: r =>
        if char_is c 48 then Some ([c], r)
        else if is_digit c then let '(ds, rest) := span_digits r in Some (c :: ds, rest)
        else None
    | [] => None
    end in
  match int_part with
  | None => None
  | Some (ip, cs2) =>
      let frac :=
        match cs2 with
        | c :: r =>
            if char_is c 46 then
              match span_digits r with
              | ([], _) => None
              | (ds, rest) => Some (c :: ds, rest)
              end
            else Some ([], cs2)
        | [] => Some ([], cs2)
        end in
      match frac with
      | None => None
      | Some (fp, cs3) =>
          let exp :=
            match cs3 with
            | c :: r =>
                if char_is c 101 || char_is c 69 then
                  let '(sg, r1) :=
                    match r with
                    | s :: r' => if char_is s 43 || char_is s 45 then ([s], r') else ([], r)
                    | [] => ([], r)
                    end in
                  match span_digits r1 with
                  | ([], _) => None
                  | (ds, rest) => Some ((c :: sg ++ ds)%list, rest)
                  end
                else Some ([], cs3)
            | [] => Some ([], cs3)
            end in
          match exp with
          | None => None
          | Some (ep, cs4) => Some ((sign ++ ip ++ fp ++ ep)%list, cs4)
          end
      end
  end.

Fixpoint starts_with (lit cs : list ascii) : option (list ascii) :=
  match lit, cs with
  | [], _ => Some cs
  | l :: lit', c :: cs' => if Ascii.eqb l c then starts_with lit' cs' else None
  | _ :: _, [] => None
  end.

(** value, elements of an array after [[], members of an object after [{]. *)
Fixpoint parse_value (fuel : nat) (cs : list ascii) : option (value * list ascii) :=
  match fuel with
  | O => None
  | S f =>
      match skip_ws cs with
      | [] => None
      | c :: r =>
          if char_is c 123 then
            match skip_ws r with
            | c' :: r' =>
                if char_is c' 125 then Some (JObject [], r') else parse_members f r []
            | [] => None
            end
          else if char_is c 91 then
            match skip_ws r with
            | c' :: r' =>
                if char_is c' 93 then Some (JArray [], r') else parse_elements f r []
            | [] => None
            end
          else if char_is c 34 then
            match string_body r [] with
            | Some (u, rest) => Some (JString u, rest)
            | None => None
            end
          else if char_is c 116 then
            match starts_with (list_ascii_of_string "true") (c :: r) with
            | Some rest => Some (JBool true, rest)
            | None => None
            end
          else if char_is c 102 then
            match starts_with (list_ascii_of_string "false") (c :: r) with
            | Some rest => Some (JBool false, rest)
            | None => None
            end
          else if char_is c 110 then
            match starts_with (list_ascii_of_string "null") (c :: r) with
            | Some rest => Some (JNull, rest)
            | None => None
            end
          else
            match number (c :: r) with
            | Some (lex, rest) => Some (JNumber (string_of_list_ascii lex), rest)
            | None => None
            end
      end
  end
with parse_elements (fuel : nat) (cs : list ascii) (acc : list value)
     : option (value * list ascii) :=
  match fuel with
  | O => None
  | S f =>
      match parse_value f cs with
      | None => None
      | Some (v, r) =>
          match skip_ws r with
          | c :: r' =>
              if char_is c 44 then parse_elements f r' (v :: acc)
              else if char_is c 93 then Some (JArray (rev (v :: acc)), r')
              else None
          | [] => None
          end
      end
  end
with parse_members (fuel : nat) (cs : list ascii) (acc : list (list N * value))
     : option (value * list ascii) :=
  match fuel with
  | O => None
  | S f =>
      match skip_ws cs with
      | q :: r =>
          if char_is q 34 then
            match string_body r [] with
            | None => None
            | Some (k, r1) =>
                match skip_ws r1 with
                | colon :: r2 =>
                    if char_is colon 58 then
                      match parse_value f r2 with
                      | None => None
                      | Some (v, r3) =>
                          match skip_ws r3 with
                          | c :: r4 =>
                              if char_is c 44 then parse_members f r4 ((k, v) :: acc)
                              else if char_is c 125 then Some (JObject (rev ((k, v) :: acc)), r4)
                              else None
                          | [] => None
                          end
                      end
                    else None
                | [] => None
                end
            end
          else None
      | [] => None
      end
  end.

(** [JSON.parse text]: [None] stands for the [SyntaxError] it throws.  Each
    recursive call has consumed a character or follows a call that did, so
    twice the length of the text is enough fuel. *)
Definition parse (text : string) : option value :=
  let cs := list_ascii_of_string text in
  match parse_value (2 * List.length cs + 2) cs with
  | Some (v, rest) =>
      match skip_ws rest with
      | [] => Some v
      | _ :: _ => None
      end
  | None => None
  end.

End JSON.

(* ================================================================= *)
(** ** types.ts *)

Module Types.

Inductive AppStage : Type := BRIEFING | RESEARCH | PROPOSAL | REFINEMENT | FINAL.

Module BriefingData.
Record t : Type := mk {
  typology : string;
  location : string;
  contextDetails : string;
  prompt : string;
  inspirationImages : list string;
  massingImage : option string;
  builtUpArea : option string;
  floorCount : option string;
  preferredMaterials : option string;
  moodMatchIntensity : option Z
}.
End BriefingData.

Module ResearchData.
Record t : Type := mk {
  summary : string;
  materials : list string;
  lighting : string;
  vernacular : string
}.
End ResearchData.

Inductive OptionType : Type := LITERAL | INSPIRED | WILDCARD | HYBRID.

Module GeneratedOption.
Record t : Type := mk {
  id : string;
  title : string;
  description : string;
  imageUrl : string;
  type : OptionType
}.
End GeneratedOption.

Inductive Role : Type := user | model.

Module ChatMessage.
Record t : Type := mk {
  id : string;
  role : Role;
  text : string;
  imageUrl : option string
}.
End ChatMessage.

Module ArchivedImage.
Record t : Type := mk {
  id : string;
  url : string;
  stage : AppStage;
  timestamp : Z;
  metadata : option string;
  type : string
}.

(** [Partial<ArchivedImage>], restricted to the properties a caller of
    [onArchive] can set and [addToArchive] reads. *)
Record partial : Type := mkPartial {
  p_id : option string;
  p_url : option string;
  p_type : option string;
  p_metadata : option string
}.
End ArchivedImage.

Module Project.
Record t : Type := mk {
  id : string;
  name : string;
  timestamp : Z;
  brief : BriefingData.t;
  research : option ResearchData.t;
  images : list ArchivedImage.t;
  finalImage : option string
}.
End Project.

End Types.

Import Types.

(** The double quote, for the template strings that contain one. *)
Definition dquote : string := String (Ascii.ascii_of_nat 34) EmptyString.

(* ================================================================= *)
(** ** services/gemini.ts *)

Module Gemini.

(** What the generation service answers with. *)
Record InlineData : Type := { mimeType : string; data : string }.
Record Part : Type := { inlineData : option InlineData }.
Record Content : Type := { parts : option (list Part) }.
Record Candidate : Type := { content : option Content }.
Record GenerateContentResponse : Type := { candidates : option (list Candidate) }.

(** How one [ai.models.generateContent] call settles. *)
Inductive ApiResult : Type :=
| ApiReturns (response : GenerateContentResponse)
| ApiThrows (error : string).

Definition call (api : ApiResult) : completion GenerateContentResponse :=
  match api with
  | ApiReturns r => Normal r
  | ApiThrows e => Throw e
  end.

Definition dataUrl (d : InlineData) : string :=
  "data:" ++ mimeType d ++ ";base64," ++ data d.

(** [response.candidates && response.candidates[0].content.parts]: the parts
    to scan when the condition is truthy, [None] when it is falsy; reading
    [content] of a missing first candidate, or [parts] of a missing
    content, is a [TypeError]. *)
Definition response_parts (r : GenerateContentResponse) : completion (option (list Part)) :=
  match candidates r with
  | None => Normal None
  | Some [] => Throw "TypeError"
  | Some (c :: _) =>
      match content c with
      | None => Throw "TypeError"
      | Some ct => Normal (parts ct)
      end
  end.

(** The loop that overwrites [imageUrl] at every part with inline data. *)
Definition last_image (ps : list Part) : string :=
  fold_left (fun url p =>
               match inlineData p with
               | Some d => dataUrl d
               | None => url
               end) ps "".

(** The loop of [generateAngle], which returns at the first such part. *)
Fixpoint first_image (ps : list Part) : string :=
  match ps with
  | [] => ""
  | p :: rest =>
      match inlineData p with
      | Some d => dataUrl d
      | None => first_image rest
      end
  end.

Definition scan (loop : list Part -> string) (r : GenerateContentResponse) : completion string :=
  match response_parts r with
  | Normal (Some ps) => Normal (loop ps)
  | Normal None => Normal ""
  | Throw e => Throw e
  end.

(** The image a call yields: the service call followed by the scan of its
    response. *)
Definition image_of (loop : list Part -> string) (api : ApiResult) : completion string :=
  match call api with
  | Normal r => scan loop r
  | Throw e => Throw e
  end.

(** *** generateArchitecturalConcepts *)

Definition generateOne (type : OptionType) (title description : string)
           (api : ApiResult) (uuid : string) : settled GeneratedOption.t :=
  match image_of last_image api with
  | Normal imageUrl =>
      Fulfilled (GeneratedOption.mk uuid title description imageUrl type)
  | Throw _ =>
      Fulfilled (GeneratedOption.mk uuid title description "" type)
  end.

Definition keep_with_image (results : list GeneratedOption.t) : list GeneratedOption.t :=
  filter (fun r => negb (GeneratedOption.imageUrl r =? "")) results.

Definition wildcardDesc (brief : BriefingData.t) : string :=
  if truthy_opt (BriefingData.massingImage brief)
  then "Bold material application on the provided form."
  else "A bold risk taking the local vernacular to an extreme avant-garde direction.".

Definition literalDesc (brief : BriefingData.t) : string :=
  if truthy_opt (BriefingData.massingImage brief)
  then "Exact replication of your massing model with requested materials."
  else "A literal interpretation of your specific prompt requirements.".

Definition inspiredDesc (brief : BriefingData.t) : string :=
  if truthy_opt (BriefingData.massingImage brief)
  then "Your massing model draped in the materials of your inspiration images."
  else "Heavily influenced by the mood and structure of your inspiration input.".

Definition promiseA brief api uuid :=
  generateOne LITERAL "The Direct Vision" (literalDesc brief) api uuid.
Definition promiseB brief api uuid :=
  generateOne INSPIRED "The Muse" (inspiredDesc brief) api uuid.
Definition promiseC brief api uuid :=
  generateOne WILDCARD "The Local Evo" (wildcardDesc brief) api uuid.

Definition generateArchitecturalConcepts (brief : BriefingData.t) (research : ResearchData.t)
           (apiA apiB apiC : ApiResult) (uuidA uuidB uuidC : string)
  : settled (list GeneratedOption.t) :=
  match Promise_all [promiseA brief apiA uuidA; promiseB brief apiB uuidB;
                     promiseC brief apiC uuidC] with
  | Fulfilled results => Fulfilled (keep_with_image results)
  | Rejected e => Rejected e
  end.

(** *** generateHybridConcepts *)

Definition generateVariant (userGuidance variantName emphasis : string)
           (api : ApiResult) (uuid : string) : settled GeneratedOption.t :=
  match image_of last_image api with
  | Normal imageUrl =>
      Fulfilled (GeneratedOption.mk uuid
                   ("Hybrid: " ++ variantName)
                   (emphasis ++ " based on: " ++ dquote ++ userGuidance ++ dquote)
                   imageUrl HYBRID)
  | Throw e => Rejected e            (* console.error; throw e *)
  end.

Definition promise1 userGuidance api uuid :=
  generateVariant userGuidance "Balanced Synthesis"
    "Create a perfectly balanced mix of the input designs, harmonizing their best features."
    api uuid.
Definition promise2 userGuidance api uuid :=
  generateVariant userGuidance "Bold Interpretation"
    "Take the most dramatic elements from the inputs and amplify them. Focus on material contrast."
    api uuid.
Definition promise3 userGuidance api uuid :=
  generateVariant userGuidance "Subtle Integration"
    "Create a refined, understated version. Blend the concepts seamlessly with a focus on elegance and the prompt instructions."
    api uuid.

Definition generateHybridConcepts (brief : BriefingData.t) (research : ResearchData.t)
           (options : list GeneratedOption.t) (userGuidance : string)
           (api1 api2 api3 : ApiResult) (uuid1 uuid2 uuid3 : string)
  : settled (list GeneratedOption.t) :=
  match Promise_all [promise1 userGuidance api1 uuid1; promise2 userGuidance api2 uuid2;
                     promise3 userGuidance api3 uuid3] with
  | Fulfilled results => Fulfilled (keep_with_image results)
  | Rejected e => Rejected e
  end.

(** *** refineArchitecturalImage *)

Fixpoint strip_prefix (p s : string) : option string :=
  match p, s with
  | EmptyString, _ => Some s
  | String a p', String b s' => if Ascii.eqb a b then strip_prefix p' s' else None
  | String _ _, EmptyString => None
  end.

Definition is_line_terminator (c : ascii) : bool :=
  match N_of_ascii c with
  | 10%N | 13%N => true
  | _ => false
  end.

Fixpoint no_line_terminator (s : string) : bool :=
  match s with
  | EmptyString => true
  | String c r => negb (is_line_terminator c) && no_line_terminator r
  end.

(** Some suffix of [s] is [;base64,] followed by at least one character. *)
Fixpoint marker_then_data (s : string) : bool :=
  match s with
  | EmptyString => false
  | String _ r =>
      match strip_prefix ";base64," s with
      | Some (String _ _) => true
      | _ => marker_then_data r
      end
  end.

(** Whether [s.match(/^data:(.+);base64,(.+)$/)] is a match. *)
Definition is_data_url (s : string) : bool :=
  match strip_prefix "data:" s with
  | Some (String _ r as rest) => no_line_terminator rest && marker_then_data r
  | _ => false
  end.

Definition refineArchitecturalImage (currentImage userInstruction : string)
           (brief : BriefingData.t) (api : ApiResult) : settled string :=
  if is_data_url currentImage then
    match image_of last_image api with
    | Normal imageUrl => Fulfilled imageUrl
    | Throw e => Rejected e          (* console.error; throw error *)
    end
  else Rejected "Invalid image data format".

(** *** generateMultiAngleViews *)

Definition generateAngle (api : ApiResult) : settled string :=
  match image_of first_image api with
  | Normal url => Fulfilled url
  | Throw _ => Fulfilled ""
  end.

Definition generateMultiAngleViews (baseImage : string) (brief : BriefingData.t)
           (api1 api2 api3 : ApiResult) : settled (list string) :=
  match Promise_all [generateAngle api1; generateAngle api2; generateAngle api3] with
  | Fulfilled angles => Fulfilled (filter (fun a => negb (a =? "")) angles)
  | Rejected e => Rejected e
  end.

End Gemini.

(* ================================================================= *)
(** ** App.tsx *)

Module App.

(** The initializer of the [projects] state:
    [saved ? JSON.parse(saved) : []], where [saved] is what
    [localStorage.getItem(STORAGE_KEY)] returned ([null] when the key is
    absent).  The parsed value is used as [Project[]] without a check. *)
Definition projects_initializer (saved : option string) : completion JSON.value :=
  match saved with
  | None => Normal (JSON.JArray [])
  | Some text =>
      if truthy text then
        match JSON.parse text with
        | Some v => Normal v
        | None => Throw "SyntaxError"
        end
      else Normal (JSON.JArray [])
  end.

Record State : Type := mkState {
  stage : AppStage;
  briefData : option BriefingData.t;
  researchData : option ResearchData.t;
  selectedOption : option GeneratedOption.t;
  finalImage : string;
  chatHistory : list ChatMessage.t;
  projects : list Project.t;
  currentProjectId : string;
  isLibraryOpen : bool
}.

Definition has_id (projectId : string) (p : Project.t) : bool :=
  Project.id p =? projectId.

Definition with_images (p : Project.t) (imgs : list ArchivedImage.t) : Project.t :=
  Project.mk (Project.id p) (Project.name p) (Project.timestamp p) (Project.brief p)
             (Project.research p) imgs (Project.finalImage p).

(** The record [addToArchive] builds from its argument; [stage] comes from
    the render closure, [now] is [Date.now()] and [uuid] is what
    [crypto.randomUUID()] returns when it is called. *)
Definition newImage (stage : AppStage) (now : Z) (uuid : string)
           (img : ArchivedImage.partial) : ArchivedImage.t :=
  ArchivedImage.mk
    (or_else (ArchivedImage.p_id img) uuid)
    (or_else (ArchivedImage.p_url img) "")
    stage
    now
    (Some (or_else (ArchivedImage.p_metadata img) "Generated Image"))
    (or_else (ArchivedImage.p_type img) "UNKNOWN").

(** The updater [addToArchive] hands to [setProjects]. *)
Definition addToArchive (stage : AppStage) (currentProjectId : string)
           (now : Z) (uuid : string) (img : ArchivedImage.partial)
           (prev : list Project.t) : list Project.t :=
  let new := newImage stage now uuid img in
  match find (has_id currentProjectId) prev with
  | None => prev
  | Some proj =>
      if found (find (fun i => ArchivedImage.id i =? ArchivedImage.id new)
                     (Project.images proj))
      then prev
      else map (fun p => if has_id currentProjectId p
                         then with_images p (new :: Project.images p)
                         else p) prev
  end.

Definition startNewProject (uuid : string) (s : State) : State :=
  mkState BRIEFING None None None "" [] (projects s) uuid false.

Definition loadProject (project : Project.t) (s : State) : State :=
  mkState
    (if truthy_opt (Project.finalImage project) then FINAL
     else if found (Project.research project) then PROPOSAL
     else BRIEFING)
    (Some (Project.brief project))
    (Project.research project)
    (selectedOption s)
    (or_else (Project.finalImage project) "")
    (chatHistory s)
    (projects s)
    (Project.id project)
    false.

End App.

(* ================================================================= *)
(** ** components/RefinementStep.tsx *)

Module RefinementStep.

Module DesignVersion.
Record t : Type := mk {
  id : string;
  imageUrl : string;
  timestamp : Z;
  prompt : string
}.
End DesignVersion.

(** A refinement call that has been issued and has not settled: the
    arguments its continuation keeps in its closure. *)
Record Request : Type := mkRequest {
  sentImage : string;
  userMsgText : string
}.

(** The component's state cells, together with what the component has done
    to the outside: the refinement calls still outstanding and the
    [onArchive] calls made so far, oldest first. *)
Record State : Type := mkState {
  currentImage : string;
  historyVersions : list DesignVersion.t;
  chatHistory : list ChatMessage.t;
  input : string;
  isProcessing : bool;
  inflight : list Request;
  archived : list ArchivedImage.partial
}.

(** The gate of [isProcessing]: either nothing is outstanding and the flag is
    down, or exactly one call is outstanding and the flag is up. *)
Definition gated (s : State) : Prop :=
  (isProcessing s = false /\ inflight s = [])
  \/ (isProcessing s = true /\ exists r, inflight s = [r]).

Section Component.

(** Props, and the locale-dependent rendering of a time of day. *)
Variable selectedOption : GeneratedOption.t.
Variable briefData : BriefingData.t.
Variable toLocaleTimeString : Z -> string.

(** State at mount; [now] is the [new Date()] of the seed version. *)
Definition initial (now : Z) : State :=
  mkState
    (GeneratedOption.imageUrl selectedOption)
    [DesignVersion.mk "v0" (GeneratedOption.imageUrl selectedOption) now "Original Concept"]
    [ChatMessage.mk "init" model
       ("I've loaded the " ++ dquote ++ GeneratedOption.title selectedOption ++ dquote
        ++ " concept. Please verify the mood and materials. How should we iterate on this design?")
       None]
    ""
    false
    []
    [].

(** The guard of [handleSend]: [!promptText.trim() || isProcessing]. *)
Definition promptText (overridePrompt : option string) (s : State) : string :=
  or_else overridePrompt (input s).

Definition rejected (overridePrompt : option string) (s : State) : bool :=
  negb (truthy (trim (promptText overridePrompt s))) || isProcessing s.

Definition userMsg (uuid text : string) : ChatMessage.t :=
  ChatMessage.mk uuid user text None.

(** [handleSend] up to its [await]: the call to the gateway is issued with
    the current image of this render. *)
Definition handleSend (overridePrompt : option string) (uuid : string) (s : State) : State :=
  if rejected overridePrompt s then s
  else
    let text := promptText overridePrompt s in
    mkState (currentImage s) (historyVersions s)
            (chatHistory s ++ [userMsg uuid text])
            ""
            true
            (inflight s ++ [mkRequest (currentImage s) text])
            (archived s).

Definition errorMsg (uuid : string) : ChatMessage.t :=
  ChatMessage.mk uuid model
    "I encountered an error processing that refinement. Please try a different instruction."
    None.

Definition modelMsg (uuid newImageUrl : string) : ChatMessage.t :=
  ChatMessage.mk uuid model
    "Design updated. I've incorporated your comments while maintaining the inspiration mood. What else needs adjustment?"
    (Some newImageUrl).

(** How the awaited call of request [r] ends. *)
Definition outcome (r : Request) (api : Gemini.ApiResult) : completion string :=
  await (Gemini.refineArchitecturalImage (sentImage r) (userMsgText r) briefData api).

(** The new image of a request whose [try] block runs to its end. *)
Definition refined (r : Request) (api : Gemini.ApiResult) : option string :=
  match outcome r api with
  | Normal newImageUrl => if truthy newImageUrl then Some newImageUrl else None
  | Throw _ => None
  end.

(** [handleSend] from its [await] on, for the oldest outstanding request:
    the [try] body, the [catch] and the [finally].  [uuid1] and [uuid2]
    are the first and second [crypto.randomUUID()] of the continuation,
    [now] its [new Date()]. *)
Definition handleSend_resume (api : Gemini.ApiResult) (uuid1 uuid2 : string) (now : Z)
           (s : State) : State :=
  match inflight s with
  | [] => s
  | r :: rest =>
      match refined r api with
      | Some newImageUrl =>
          mkState newImageUrl
                  (historyVersions s
                   ++ [DesignVersion.mk uuid1 newImageUrl now (userMsgText r)])
                  (chatHistory s ++ [modelMsg uuid2 newImageUrl])
                  (input s)
                  false
                  rest
                  (archived s
                   ++ [ArchivedImage.mkPartial (Some uuid1) (Some newImageUrl)
                         (Some "ITERATION") (Some ("Refinement: " ++ userMsgText r))])
      | None =>
          mkState (currentImage s) (historyVersions s)
                  (chatHistory s ++ [errorMsg uuid1])
                  (input s)
                  false
                  rest
                  (archived s)
      end
  end.

Definition restoreMsg (version : DesignVersion.t) (uuid : string) : ChatMessage.t :=
  ChatMessage.mk uuid model
    ("Restored version from " ++ toLocaleTimeString (DesignVersion.timestamp version) ++ ".")
    None.

Definition restoreVersion (version : DesignVersion.t) (uuid : string) (s : State) : State :=
  mkState (DesignVersion.imageUrl version) (historyVersions s)
          (chatHistory s ++ [restoreMsg version uuid])
          (input s) (isProcessing s) (inflight s) (archived s).

Definition setInput (value : string) (s : State) : State :=
  mkState (currentImage s) (historyVersions s) (chatHistory s)
          value (isProcessing s) (inflight s) (archived s).

(** [disabled] of the send button. *)
Definition sendDisabled (s : State) : bool :=
  negb (truthy (trim (input s))) || isProcessing s.

(** What can happen to a mounted component. *)
Inductive Event : Type :=
| Send (overridePrompt : option string) (uuid : string)
| Settle (api : Gemini.ApiResult) (uuid1 uuid2 : string) (now : Z)
| Restore (version : DesignVersion.t) (uuid : string)
| Typing (value : string).

Definition step (s : State) (e : Event) : State :=
  match e with
  | Send o u => handleSend o u s
  | Settle api u1 u2 now => handleSend_resume api u1 u2 now s
  | Restore v u => restoreVersion v u s
  | Typing value => setInput value s
  end.

Definition run (es : list Event) (s : State) : State := fold_left step es s.

(** Whether event [e], arriving in state [s], is the settlement of a
    request with a new image. *)
Definition appends (s : State) (e : Event) : bool :=
  match e, inflight s with
  | Settle api _ _ _, r :: _ => found (refined r api)
  | _, _ => false
  end.

(** Number of versions the events [es], arriving from [s] on, append. *)
Fixpoint appended (es : list Event) (s : State) : nat :=
  match es with
  | [] => 0
  | e :: rest => (if appends s e then 1 else 0) + appended rest (step s e)
  end.

End Component.

End RefinementStep.

(* ================================================================= *)
(** ** Effects of the step components *)

(** Whether the component that started an asynchronous call is still mounted
    when the call settles. *)
Inductive Lifecycle : Type := StillMounted | TornDown.

(** The state updates a continuation performs, in program order: calls of
    the component's own state setters, timers it starts, and calls of the
    [onArchive] callback, which updates the project list of [App]. *)
Inductive Mutation : Type :=
| setStatus (status : string)
| setDetails (details : list string)
| setTimeout_onResearchComplete (research : ResearchData.t)
| setAngles (angles : list string)
| setLoadingAngles (loading : bool)
| setOptions (options : list GeneratedOption.t)
| setLoading (loading : bool)
| onArchive (img : ArchivedImage.partial).

Fixpoint join (sep : string) (l : list string) : string :=
  match l with
  | [] => ""
  | [x] => x
  | x :: rest => x ++ sep ++ join sep rest
  end.

Definition string_of_nat (n : nat) : string :=
  NilZero.string_of_uint (Nat.to_uint n).

Definition string_of_Z (z : Z) : string :=
  NilZero.string_of_int (Z.to_int z).

Module ResearchStep.

(** [let isMounted = true], and the cleanup [() => { isMounted = false }]. *)
Definition isMounted (l : Lifecycle) : bool :=
  match l with
  | StillMounted => true
  | TornDown => false
  end.

(** [runResearch] from [await performContextResearch(briefData)] on. *)
Definition runResearch_resume (l : Lifecycle) (research : completion ResearchData.t)
  : list Mutation :=
  match research with
  | Normal research =>
      if isMounted l then
        [setDetails
           ["Detected Context: " ++ ResearchData.lighting research;
            "Suggested Materials: " ++ join ", " (ResearchData.materials research);
            "Style Note: " ++ ResearchData.vernacular research];
         setTimeout_onResearchComplete research]
      else []
  | Throw _ =>
      if isMounted l then [setStatus "Error accessing context database."] else []
  end.

End ResearchStep.

Module FinalStep.

(** [let mounted = true], and the cleanup [() => { mounted = false }]. *)
Definition mounted (l : Lifecycle) : bool :=
  match l with
  | StillMounted => true
  | TornDown => false
  end.

(** The [onArchive] calls of [newAngles.forEach((url, idx) => ...)], from
    index [idx] on; [now idx] is the [Date.now()] of the call at [idx]. *)
Fixpoint archiveAngles (now : nat -> Z) (idx : nat) (urls : list string) : list Mutation :=
  match urls with
  | [] => []
  | url :: rest =>
      onArchive (ArchivedImage.mkPartial
                   (Some ("angle-" ++ string_of_nat idx ++ "-" ++ string_of_Z (now idx)))
                   (Some url)
                   (Some "ANGLE")
                   (Some ("Final View: Angle " ++ string_of_nat (idx + 1))))
      :: archiveAngles now (S idx) rest
  end.

(** [loadAngles] from [await generateMultiAngleViews(finalImage, briefData)]
    on: the [try] body or the [catch], then the [finally]. *)
Definition loadAngles_resume (l : Lifecycle) (newAngles : settled (list string))
           (now : nat -> Z) : list Mutation :=
  (match await newAngles with
   | Normal newAngles =>
       if mounted l then setAngles newAngles :: archiveAngles now 0 newAngles else []
   | Throw _ => []
   end)
  ++ (if mounted l then [setLoadingAngles false] else []).

End FinalStep.

Module ProposalStep.

Definition archiveConcept (opt : GeneratedOption.t) : Mutation :=
  onArchive (ArchivedImage.mkPartial
               (Some (GeneratedOption.id opt))
               (Some (GeneratedOption.imageUrl opt))
               (Some "CONCEPT")
               (Some (GeneratedOption.title opt ++ ": " ++ GeneratedOption.description opt))).

(** [fetchOptions] from [await generateArchitecturalConcepts(...)] on.  The
    effect declares no flag and returns no cleanup, so the continuation
    reads nothing that a teardown changes; a rejection leaves the function
    without any update. *)
Definition fetchOptions_resume (l : Lifecycle) (generated : settled (list GeneratedOption.t))
  : list Mutation :=
  match await generated with
  | Normal generated =>
      map archiveConcept generated ++ [setOptions generated; setLoading false]
  | Throw _ => []
  end.

End ProposalStep.

(** The effect on the project list of [App] of the [onArchive] calls among
    [ms].  [stage] and [currentProjectId] are those of the render whose
    [addToArchive] was passed to the component; the k-th call reads
    [clock k] from [Date.now()] and would get [uuids k] from
    [crypto.randomUUID()]. *)
Fixpoint archive_writes (stage : AppStage) (currentProjectId : string)
         (clock : nat -> Z) (uuids : nat -> string) (k : nat)
         (ms : list Mutation) (projects : list Project.t) : list Project.t :=
  match ms with
  | [] => projects
  | onArchive img :: rest =>
      archive_writes stage currentProjectId clock uuids (S k) rest
        (App.addToArchive stage currentProjectId (clock k) (uuids k) img projects)
  | _ :: rest => archive_writes stage currentProjectId clock uuids k rest projects
  end.

(* ================================================================= *)
(** ** components/BriefingStep.tsx *)

Module BriefingStep.

(** A selected file, identified with the data URL [readAsDataURL] produces
    for it. *)
Definition File : Type := string.

(** The [data] state cell (its list of inspiration images; the other fields
    are not touched by the handlers below) and the batches of files whose
    reads have been started and have not all ended. *)
Record State : Type := mkState {
  inspirationImages : list string;
  reading : list (list File)
}.

Definition initial : State := mkState [] [].

(** [handleInspirationChange] up to [Promise.all(...)]: [files] is
    [e.target.files], [None] when it is [null]. *)
Definition handleInspirationChange (files : option (list File)) (s : State) : State :=
  match files with
  | None => s
  | Some files =>
      let remainingSlots := (10 - Z.of_nat (List.length (inspirationImages s)))%Z in
      if (remainingSlots <=? 0)%Z then s
      else
        let filesToProcess := firstn (Z.to_nat remainingSlots) files in
        mkState (inspirationImages s) (reading s ++ [filesToProcess])
  end.

Fixpoint remove_nth {A} (i : nat) (l : list A) : list A :=
  match l, i with
  | [], _ => []
  | _ :: rest, O => rest
  | x :: rest, S j => x :: remove_nth j rest
  end.

(** The [then] callback of the batch at position [i] of [reading]:
    [setData(prev => ({...prev, inspirationImages: [...prev.inspirationImages, ...newImages]}))]. *)
Definition readsComplete (i : nat) (s : State) : State :=
  match nth_error (reading s) i with
  | None => s
  | Some newImages =>
      mkState (inspirationImages s ++ newImages) (remove_nth i (reading s))
  end.

(** [prev.inspirationImages.filter((_, i) => i !== index)] *)
Definition removeInspirationImage (index : nat) (s : State) : State :=
  mkState (remove_nth index (inspirationImages s)) (reading s).

(** The guard of the add-image tile: [data.inspirationImages.length < 10]. *)
Definition addTileShown (s : State) : bool :=
  (List.length (inspirationImages s) <? 10)%nat.

Inductive Event : Type :=
| Change (files : option (list File))
| ReadsDone (i : nat)
| Remove (index : nat).

Definition step (s : State) (e : Event) : State :=
  match e with
  | Change files => handleInspirationChange files s
  | ReadsDone i => readsComplete i s
  | Remove index => removeInspirationImage index s
  end.

Definition run (es : list Event) (s : State) : State := fold_left step es s.

(** An addition whose reads end before anything else happens. *)
Definition addFiles (files : list File) (s : State) : State :=
  readsComplete (List.length (reading s)) (handleInspirationChange (Some files) s).

End BriefingStep.

(* ================================================================= *)
(** ** Outcomes of a generation call, and sample values *)

Module Batch.

Import Gemini.

(** A call fails when it throws or yields no image. *)
Definition fails (loop : list Part -> string) (api : ApiResult) : bool :=
  match image_of loop api with
  | Normal url => negb (truthy url)
  | Throw _ => true
  end.

Definition throws (api : ApiResult) : bool :=
  match image_of last_image api with
  | Normal _ => false
  | Throw _ => true
  end.

(** The image of a call that does not throw. *)
Definition image (loop : list Part -> string) (api : ApiResult) : string :=
  match image_of loop api with
  | Normal url => url
  | Throw _ => ""
  end.

Definition failures (loop : list Part -> string) (apis : list ApiResult) : nat :=
  List.length (filter (fails loop) apis).

(** The members of a batch whose call did not fail, in call order. *)
Definition successful {A} (loop : list Part -> string) (members : list (ApiResult * A)) : list A :=
  map snd (filter (fun m => negb (fails loop (fst m))) members).

(** The options the three calls of each batch are to produce. *)
Definition conceptA brief api uuid :=
  GeneratedOption.mk uuid "The Direct Vision" (literalDesc brief) (image last_image api) LITERAL.
Definition conceptB brief api uuid :=
  GeneratedOption.mk uuid "The Muse" (inspiredDesc brief) (image last_image api) INSPIRED.
Definition conceptC brief api uuid :=
  GeneratedOption.mk uuid "The Local Evo" (wildcardDesc brief) (image last_image api) WILDCARD.

Definition hybrid (userGuidance variantName emphasis : string) api uuid :=
  GeneratedOption.mk uuid ("Hybrid: " ++ variantName)
    (emphasis ++ " based on: " ++ dquote ++ userGuidance ++ dquote)
    (image last_image api) HYBRID.
Definition hybrid1 g api uuid :=
  hybrid g "Balanced Synthesis"
    "Create a perfectly balanced mix of the input designs, harmonizing their best features."
    api uuid.
Definition hybrid2 g api uuid :=
  hybrid g "Bold Interpretation"
    "Take the most dramatic elements from the inputs and amplify them. Focus on material contrast."
    api uuid.
Definition hybrid3 g api uuid :=
  hybrid g "Subtle Integration"
    "Create a refined, understated version. Blend the concepts seamlessly with a focus on elegance and the prompt instructions."
    api uuid.

(** A response carrying one PNG image, and one carrying none. *)
Definition png (data : string) : ApiResult :=
  ApiReturns
    {| candidates :=
         Some [{| content :=
                    Some {| parts := Some [{| inlineData :=
                                                Some {| mimeType := "image/png";
                                                        data := data |} |}] |} |}] |}.

Definition textOnly : ApiResult :=
  ApiReturns
    {| candidates :=
         Some [{| content := Some {| parts := Some [{| inlineData := None |}] |} |}] |}.

End Batch.

Module Sample.

Definition brief : BriefingData.t :=
  BriefingData.mk "Museum" "Riyadh" "" "a quiet courtyard" [] None None None None (Some 50%Z).

Definition research : ResearchData.t :=
  ResearchData.mk "summary" ["Local Stone"; "Glass"] "Standard daylight conditions."
                  "Modern contemporary adapted to local climate.".

Definition option1 : GeneratedOption.t :=
  GeneratedOption.mk "o1" "The Direct Vision" "A literal interpretation"
                     "data:image/png;base64,AAAA" LITERAL.

Definition project (images : list ArchivedImage.t) : Project.t :=
  Project.mk "p1" "Museum in Riyadh" 1700000000000%Z brief (Some research) images None.

Definition timeOfDay (t : Z) : string := "10:15:00".

Definition tenFiles : list BriefingStep.File :=
  ["f0"; "f1"; "f2"; "f3"; "f4"; "f5"; "f6"; "f7"; "f8"; "f9"].

End Sample.

(* ================================================================= *)
(** ** App.tsx: the project store and the stage handlers *)

Module Controller.

(** [Partial<Project>]: [None] for a key that is absent.  For the two
    optional properties of [Project] a key can be present with the value
    [undefined], which the spread copies like any other value. *)
Record partialProject : Type := mkPartialProject {
  u_id : option string;
  u_name : option string;
  u_timestamp : option Z;
  u_brief : option BriefingData.t;
  u_research : option (option ResearchData.t);
  u_images : option (list ArchivedImage.t);
  u_finalImage : option (option string)
}.

Definition override {A} (own : A) (update : option A) : A :=
  match update with
  | Some v => v
  | None => own
  end.

(** [{ ...p, ...updates }] *)
Definition spread (p : Project.t) (updates : partialProject) : Project.t :=
  Project.mk
    (override (Project.id p) (u_id updates))
    (override (Project.name p) (u_name updates))
    (override (Project.timestamp p) (u_timestamp updates))
    (override (Project.brief p) (u_brief updates))
    (override (Project.research p) (u_research updates))
    (override (Project.images p) (u_images updates))
    (override (Project.finalImage p) (u_finalImage updates)).

Definition emptyBrief : BriefingData.t :=
  BriefingData.mk "" "" "" "" [] None None None None None.

Definition projectName (data : BriefingData.t) : string :=
  BriefingData.typology data ++ " in " ++ BriefingData.location data.

(** The updater [updateCurrentProject] hands to [setProjects]; [briefData]
    and [currentProjectId] come from the render closure, [now] is the
    [Date.now()] of the branch that creates a project. *)
Definition updateCurrentProject (briefData : option BriefingData.t)
           (currentProjectId : string) (now : Z) (updates : partialProject)
           (prev : list Project.t) : list Project.t :=
  if found (find (App.has_id currentProjectId) prev) then
    map (fun p => if App.has_id currentProjectId p then spread p updates else p) prev
  else
    let newProj :=
      spread (Project.mk currentProjectId
                (match briefData with
                 | Some b => projectName b
                 | None => "Unnamed Project"
                 end)
                now
                (match briefData with
                 | Some b => b
                 | None => emptyBrief
                 end)
                None [] None)
             updates in
    newProj :: prev.

Definition onlyBrief (data : BriefingData.t) (now : Z) : partialProject :=
  mkPartialProject None (Some (projectName data)) (Some now) (Some data) None None None.

Definition onlyResearch (data : ResearchData.t) : partialProject :=
  mkPartialProject None None None None (Some (Some data)) None None.

Definition onlyFinalImage (image : string) : partialProject :=
  mkPartialProject None None None None None None (Some (Some image)).

Definition with_projects (s : App.State) (stage : AppStage) (ps : list Project.t) : App.State :=
  App.mkState stage (App.briefData s) (App.researchData s) (App.selectedOption s)
              (App.finalImage s) (App.chatHistory s) ps (App.currentProjectId s)
              (App.isLibraryOpen s).

(** [now] is the [Date.now()] of the handler, [now'] that of the updater. *)
Definition handleBriefingComplete (data : BriefingData.t) (now now' : Z) (s : App.State)
  : App.State :=
  App.mkState RESEARCH (Some data) (App.researchData s) (App.selectedOption s)
              (App.finalImage s) (App.chatHistory s)
              (updateCurrentProject (App.briefData s) (App.currentProjectId s) now'
                                    (onlyBrief data now) (App.projects s))
              (App.currentProjectId s) (App.isLibraryOpen s).

Definition handleResearchComplete (data : ResearchData.t) (now' : Z) (s : App.State)
  : App.State :=
  App.mkState PROPOSAL (App.briefData s) (Some data) (App.selectedOption s)
              (App.finalImage s) (App.chatHistory s)
              (updateCurrentProject (App.briefData s) (App.currentProjectId s) now'
                                    (onlyResearch data) (App.projects s))
              (App.currentProjectId s) (App.isLibraryOpen s).

Definition handleOptionSelected (option : GeneratedOption.t) (s : App.State) : App.State :=
  App.mkState REFINEMENT (App.briefData s) (App.researchData s) (Some option)
              (App.finalImage s) (App.chatHistory s) (App.projects s)
              (App.currentProjectId s) (App.isLibraryOpen s).

Definition handleRefinementComplete (image : string) (history : list ChatMessage.t)
           (now' : Z) (s : App.State) : App.State :=
  App.mkState FINAL (App.briefData s) (App.researchData s) (App.selectedOption s)
              image history
              (updateCurrentProject (App.briefData s) (App.currentProjectId s) now'
                                    (onlyFinalImage image) (App.projects s))
              (App.currentProjectId s) (App.isLibraryOpen s).

(** The [onArchive] callback of a render of [App], as an update of its
    state. *)
Definition archive (now : Z) (uuid : string) (img : ArchivedImage.partial) (s : App.State)
  : App.State :=
  with_projects s (App.stage s)
    (App.addToArchive (App.stage s) (App.currentProjectId s) now uuid img (App.projects s)).

(** The step component [App] renders inside [<main>], with its props; [None]
    when every guarded alternative is false. *)
Inductive View : Type :=
| BriefingView
| ResearchView (briefData : BriefingData.t)
| ProposalView (briefData : BriefingData.t) (researchData : ResearchData.t)
| RefinementView (selectedOption : GeneratedOption.t) (briefData : BriefingData.t)
| FinalView (finalImage : string) (briefData : BriefingData.t)
            (researchData : ResearchData.t) (history : list ChatMessage.t).

Definition rendered (s : App.State) : option View :=
  match App.stage s with
  | BRIEFING => Some BriefingView
  | RESEARCH =>
      match App.briefData s with
      | Some b => Some (ResearchView b)
      | None => None
      end
  | PROPOSAL =>
      match App.briefData s, App.researchData s with
      | Some b, Some r => Some (ProposalView b r)
      | _, _ => None
      end
  | REFINEMENT =>
      match App.selectedOption s, App.briefData s with
      | Some o, Some b => Some (RefinementView o b)
      | _, _ => None
      end
  | FINAL =>
      if truthy (App.finalImage s) then
        match App.briefData s, App.researchData s with
        | Some b, Some r => Some (FinalView (App.finalImage s) b r (App.chatHistory s))
        | _, _ => None
        end
      else None
  end.

End Controller.

(* ================================================================= *)
(** ** components/ProposalStep.tsx: the carousel and the synthesis lab *)

Module Carousel.

Record State : Type := mkState {
  options : list GeneratedOption.t;
  loading : bool;
  currentIndex : Z;
  showSynthesisUI : bool;
  synthesisPrompt : string;
  isSynthesizing : bool
}.

Definition initial : State := mkState [] true 0%Z false "" false.

Definition count (s : State) : Z := Z.of_nat (List.length (options s)).

Definition with_index (s : State) (i : Z) : State :=
  mkState (options s) (loading s) i (showSynthesisUI s) (synthesisPrompt s) (isSynthesizing s).

(** [(prev + 1) % options.length] and [(prev - 1 + options.length) %
    options.length]; [%] is the remainder that takes the sign of the
    dividend.  The buttons exist only in the carousel, which is rendered
    when [options] is not empty. *)
Definition handleNext (s : State) : State :=
  with_index s (Z.rem (currentIndex s + 1) (count s)).

Definition handlePrev (s : State) : State :=
  with_index s (Z.rem (currentIndex s - 1 + count s) (count s)).

(** The state setters among the updates of [fetchOptions]. *)
Definition apply (s : State) (m : Mutation) : State :=
  match m with
  | setOptions generated =>
      mkState generated (loading s) (currentIndex s) (showSynthesisUI s)
              (synthesisPrompt s) (isSynthesizing s)
  | setLoading b =>
      mkState (options s) b (currentIndex s) (showSynthesisUI s)
              (synthesisPrompt s) (isSynthesizing s)
  | _ => s
  end.

Definition fetched (generated : settled (list GeneratedOption.t)) (s : State) : State :=
  fold_left apply (ProposalStep.fetchOptions_resume StillMounted generated) s.

(** [handleSynthesis] up to its [await]. *)
Definition handleSynthesis (s : State) : State :=
  if negb (truthy (trim (synthesisPrompt s))) then s
  else mkState (options s) (loading s) (currentIndex s) false (synthesisPrompt s) true.

Definition archiveHybrid (opt : GeneratedOption.t) : Mutation :=
  onArchive (ArchivedImage.mkPartial
               (Some (GeneratedOption.id opt))
               (Some (GeneratedOption.imageUrl opt))
               (Some "HYBRID")
               (Some (GeneratedOption.title opt))).

(** [handleSynthesis] from its [await] on; [captured] is the [options] of
    the render in which the handler was invoked. *)
Definition handleSynthesis_resume (captured : list GeneratedOption.t)
           (hybridOptions : settled (list GeneratedOption.t)) (s : State) : State :=
  match await hybridOptions with
  | Normal hybridOptions =>
      mkState (options s ++ hybridOptions) (loading s)
              (Z.of_nat (List.length captured))
              (showSynthesisUI s) (synthesisPrompt s) false
  | Throw _ =>
      mkState (options s) (loading s) (currentIndex s)
              (showSynthesisUI s) (synthesisPrompt s) false
  end.

Definition handleSynthesis_archives (hybridOptions : settled (list GeneratedOption.t))
  : list Mutation :=
  match await hybridOptions with
  | Normal hybridOptions => map archiveHybrid hybridOptions
  | Throw _ => []
  end.

(** [options[currentIndex]] *)
Definition currentOption (s : State) : option GeneratedOption.t :=
  if (currentIndex s <? 0)%Z then None
  else nth_error (options s) (Z.to_nat (currentIndex s)).

Inductive Screen : Type :=
| Drafting
| GenerationFailed
| LaboratoryActive
| Showing (currentOption : GeneratedOption.t).

(** The branches of the render function; the carousel reads
    [currentOption.imageUrl], a [TypeError] when there is no such option. *)
Definition render (s : State) : completion Screen :=
  if loading s then Normal Drafting
  else if (List.length (options s) =? 0)%nat then Normal GenerationFailed
  else if isSynthesizing s then Normal LaboratoryActive
  else
    match currentOption s with
    | Some o => Normal (Showing o)
    | None => Throw "TypeError"
    end.

End Carousel.

(* ================================================================= *)
(** ** services/gemini.ts: the image parts of a request *)

Module Requests.

Import Gemini.

(** The split of [s] at its last occurrence of [;base64,] that has at least
    one character after it. *)
Fixpoint last_marker (s : string) : option (string * string) :=
  match s with
  | EmptyString => None
  | String c r =>
      match last_marker r with
      | Some (x, y) => Some (String c x, y)
      | None =>
          match strip_prefix ";base64," s with
          | Some (String a b) => Some (EmptyString, String a b)
          | _ => None
          end
      end
  end.

(** [matches[1]] and [matches[2]] of [s.match(/^data:(.+);base64,(.+)$/)],
    [None] when there is no match: the first group is greedy, so it extends
    to the last place where the rest of the pattern still matches. *)
Definition data_url_groups (s : string) : option (string * string) :=
  match strip_prefix "data:" s with
  | Some rest =>
      if no_line_terminator rest then
        match last_marker rest with
        | Some (String a x, y) => Some (String a x, y)
        | _ => None
        end
      else None
  | None => None
  end.

(** [urls.map(match ...).filter(part => part !== null)] *)
Definition inlineParts (urls : list string) : list (string * string) :=
  flat_map (fun url => match data_url_groups url with
                       | Some g => [g]
                       | None => []
                       end) urls.

Definition massingPart (brief : BriefingData.t) : list (string * string) :=
  match BriefingData.massingImage brief with
  | Some m => if truthy m then inlineParts [m] else []
  | None => []
  end.

(** [type === 'INSPIRED' || brief.massingImage ||
     (brief.moodMatchIntensity && brief.moodMatchIntensity > 50)] *)
Definition shouldIncludeInspiration (type : OptionType) (brief : BriefingData.t) : bool :=
  match type with
  | INSPIRED => true
  | _ =>
      truthy_opt (BriefingData.massingImage brief)
      || match BriefingData.moodMatchIntensity brief with
         | Some n => negb (n =? 0)%Z && (50 <? n)%Z
         | None => false
         end
  end.

(** [imageParts] of [generateOne]. *)
Definition generateOne_imageParts (type : OptionType) (brief : BriefingData.t)
  : list (string * string) :=
  (massingPart brief
   ++ match BriefingData.inspirationImages brief with
      | [] => []
      | images => if shouldIncludeInspiration type brief then inlineParts images else []
      end)%list.

(** [imageParts] of [generateVariant]: the option images, with the massing
    image put in front by [unshift]. *)
Definition generateVariant_imageParts (brief : BriefingData.t)
           (options : list GeneratedOption.t) : list (string * string) :=
  (massingPart brief ++ inlineParts (map GeneratedOption.imageUrl options))%list.

(** The image parts of [refineArchitecturalImage], which throws when the
    current image is no data URL. *)
Definition refine_imageParts (currentImage : string) (brief : BriefingData.t)
  : completion (list (string * string)) :=
  match data_url_groups currentImage with
  | Some g => Normal (g :: inlineParts (firstn 2 (BriefingData.inspirationImages brief)))
  | None => Throw "Invalid image data format"
  end.

Definition generateAngle_imageParts (baseImage : string) : list (string * string) :=
  inlineParts [baseImage].

Fixpoint no_semicolon (s : string) : bool :=
  match s with
  | EmptyString => true
  | String c r => negb (N_of_ascii c =? 59)%N && no_semicolon r
  end.

End Requests.

(* ================================================================= *)
(** ** components/RefinementStep.tsx: what the user can do *)

Module Session.

Import RefinementStep.

(** The version strip offers the versions of the ledger: a trace is
    [offered] when each of its restores is of a version the ledger holds at
    that time. *)
Fixpoint offered (briefData : BriefingData.t) (toLocaleTimeString : Z -> string)
         (es : list Event) (s : State) : Prop :=
  match es with
  | [] => True
  | e :: rest =>
      match e with
      | Restore v _ => In v (historyVersions s)
      | _ => True
      end
      /\ offered briefData toLocaleTimeString rest (step briefData toLocaleTimeString s e)
  end.

Definition redesignPrompt : string :=
  "COMPLETELY REDESIGN the view. Keep the location and massing, but change the materials, lighting, and architectural detailing significantly to create a fresh alternative option.".

Definition handleCompleteRedesign (uuid : string) (s : State) : State :=
  handleSend (Some redesignPrompt) uuid s.

Fixpoint all_white_space (s : string) : bool :=
  match s with
  | EmptyString => true
  | String c r => is_white_space c && all_white_space r
  end.

(** The id and url under which a version is archived. *)
Definition archivedAs (v : DesignVersion.t) : option string * option string :=
  (Some (DesignVersion.id v), Some (DesignVersion.imageUrl v)).

Definition idAndUrl (img : ArchivedImage.partial) : option string * option string :=
  (ArchivedImage.p_id img, ArchivedImage.p_url img).

End Session.

(* ================================================================= *)
(** ** components/BriefingStep.tsx: edits that do not overlap *)

Module BriefingEdits.

Import BriefingStep.

Inductive Edit : Type :=
| Add (files : list File)
| Delete (index : nat).

Definition edit (s : State) (e : Edit) : State :=
  match e with
  | Add files => addFiles files s
  | Delete index => removeInspirationImage index s
  end.

Definition edits (es : list Edit) (s : State) : State := fold_left edit es s.

End BriefingEdits.

(* ================================================================= *)
(** ** App.tsx: what can happen to the application state *)

Module Flow.

Import Controller.

Inductive Action : Type :=
| BriefingComplete (data : BriefingData.t) (now now' : Z)
| ResearchComplete (data : ResearchData.t) (now' : Z)
| OptionSelected (option : GeneratedOption.t)
| RefinementComplete (image : string) (history : list ChatMessage.t) (now' : Z)
| Archive (now : Z) (uuid : string) (img : ArchivedImage.partial)
| StartNew (uuid : string)
| Load (project : Project.t).

Definition step (s : App.State) (a : Action) : App.State :=
  match a with
  | BriefingComplete data now now' => handleBriefingComplete data now now' s
  | ResearchComplete data now' => handleResearchComplete data now' s
  | OptionSelected o => handleOptionSelected o s
  | RefinementComplete image history now' => handleRefinementComplete image history now' s
  | Archive now uuid img => archive now uuid img s
  | StartNew uuid => App.startNewProject uuid s
  | Load project => App.loadProject project s
  end.

Definition run (actions : list Action) (s : App.State) : App.State :=
  fold_left step actions s.


End Flow.

(* ================================================================= *)
(** ** The archive calls of a continuation, and the export log *)

Module Effects.

(** The arguments of the [onArchive] calls among [ms], in order. *)
Fixpoint archiveCalls (ms : list Mutation) : list ArchivedImage.partial :=
  match ms with
  | [] => []
  | onArchive img :: rest => img :: archiveCalls rest
  | _ :: rest => archiveCalls rest
  end.

(** [history.filter(h => h.id !== 'init')] of [handleExportPDF]. *)
Definition significantHistory (history : list ChatMessage.t) : list ChatMessage.t :=
  filter (fun h => negb (ChatMessage.id h =? "init")) history.

(** No id drawn for a turn of the conversation log is the string [init]. *)
Definition drawsNoInit (e : RefinementStep.Event) : Prop :=
  match e with
  | RefinementStep.Send _ uuid => uuid <> "init"
  | RefinementStep.Settle _ uuid1 uuid2 _ => uuid1 <> "init" /\ uuid2 <> "init"
  | RefinementStep.Restore _ uuid => uuid <> "init"
  | RefinementStep.Typing _ => True
  end.

End Effects.

(* ================================================================= *)
(** * Properties *)

(** ** Start-up of the project store *)

Example parse_empty_array : JSON.parse "[]" = Some (JSON.JArray []).
Proof. reflexivity. Qed.

Example parse_project_stub :
  JSON.parse ("[{" ++ dquote ++ "id" ++ dquote ++ ": 7, " ++ dquote ++ "images" ++ dquote ++ ": []}]")
  = Some (JSON.JArray
            [JSON.JObject [([105; 100]%N, JSON.JNumber "7");
                           ([105; 109; 97; 103; 101; 115]%N, JSON.JArray [])]]).
Proof. vm_compute. reflexivity. Qed.

Example parse_truncated : JSON.parse "[{" = None.
Proof. reflexivity. Qed.

Example parse_trailing_comma : JSON.parse "[1,]" = None.
Proof. reflexivity. Qed.

Lemma truthy_false_iff (s : string) : truthy s = false <-> s = "".
Proof. destruct s; simpl; split; congruence. Qed.

(** C1, counterexample.  With the truncated text [[{] under the storage key,
    the initializer of [projects] throws the [SyntaxError] of [JSON.parse];
    it returns no project list. *)
Lemma projects_initializer_corrupt_throws :
  App.projects_initializer (Some "[{") = Throw "SyntaxError"
  /\ ~ (exists v, App.projects_initializer (Some "[{") = Normal v).
Proof.
  assert (E : App.projects_initializer (Some "[{") = Throw "SyntaxError") by reflexivity.
  split; [exact E|].
  intros [v H]. rewrite E in H. discriminate H.
Qed.

(** C1, as amended.  The initializer yields the empty collection when the
    storage key is absent or holds the empty string, and the parsed value
    when the key holds well-formed JSON; on any other content it throws. *)
Theorem projects_initializer_cases (saved : option string) :
  (saved = None \/ saved = Some "" ->
   App.projects_initializer saved = Normal (JSON.JArray []))
  /\ (forall text v, saved = Some text -> text <> "" -> JSON.parse text = Some v ->
      App.projects_initializer saved = Normal v)
  /\ (forall text, saved = Some text -> text <> "" -> JSON.parse text = None ->
      App.projects_initializer saved = Throw "SyntaxError").
Proof.
  repeat split.
  - intros [-> | ->]; reflexivity.
  - intros text v -> Hne Hp. unfold App.projects_initializer.
    destruct (truthy text) eqn:T.
    + now rewrite Hp.
    + apply truthy_false_iff in T. contradiction.
  - intros text -> Hne Hp. unfold App.projects_initializer.
    destruct (truthy text) eqn:T.
    + now rewrite Hp.
    + apply truthy_false_iff in T. contradiction.
Qed.

Lemma projects_initializer_cases_witness :
  App.projects_initializer None = Normal (JSON.JArray [])
  /\ App.projects_initializer (Some "[]") = Normal (JSON.JArray [])
  /\ App.projects_initializer (Some "[{") = Throw "SyntaxError".
Proof.
  split; [|split].
  - apply (proj1 (projects_initializer_cases None)). left. reflexivity.
  - apply (proj1 (proj2 (projects_initializer_cases (Some "[]"))) "[]").
    + reflexivity.
    + discriminate.
    + reflexivity.
  - apply (proj2 (proj2 (projects_initializer_cases (Some "[{"))) "[{").
    + reflexivity.
    + discriminate.
    + reflexivity.
Defined.

(** ** Batches of three generation calls *)

Section Batches.

Import Gemini Batch.

Lemma image_empty_fails loop api : (image loop api =? "") = fails loop api.
Proof.
  unfold image, fails. destruct (image_of loop api) as [url|e]; [|reflexivity].
  destruct url; reflexivity.
Qed.

Lemma generateOne_fulfils type title description api uuid :
  generateOne type title description api uuid
  = Fulfilled (GeneratedOption.mk uuid title description (image last_image api) type).
Proof.
  unfold generateOne, image. destruct (image_of last_image api); reflexivity.
Qed.

Lemma generateVariant_fulfils g variantName emphasis api uuid :
  throws api = false ->
  generateVariant g variantName emphasis api uuid
  = Fulfilled (hybrid g variantName emphasis api uuid).
Proof.
  unfold generateVariant, hybrid, image, throws.
  destruct (image_of last_image api); [reflexivity|discriminate].
Qed.

Lemma generateVariant_rejects g variantName emphasis api uuid :
  throws api = true ->
  exists e, generateVariant g variantName emphasis api uuid = Rejected e.
Proof.
  unfold generateVariant, throws.
  destruct (image_of last_image api) as [url|e]; [discriminate|].
  intros _. now exists e.
Qed.

Lemma generateAngle_fulfils api :
  generateAngle api = Fulfilled (image first_image api).
Proof.
  unfold generateAngle, image. destruct (image_of first_image api); reflexivity.
Qed.

(** The filter of [generateArchitecturalConcepts] and
    [generateHybridConcepts] keeps the members whose call did not fail. *)
Lemma keep_with_image_successful (a b c : ApiResult) (oa ob oc : GeneratedOption.t) :
  GeneratedOption.imageUrl oa = image last_image a ->
  GeneratedOption.imageUrl ob = image last_image b ->
  GeneratedOption.imageUrl oc = image last_image c ->
  keep_with_image [oa; ob; oc] = successful last_image [(a, oa); (b, ob); (c, oc)].
Proof.
  intros Ha Hb Hc. unfold keep_with_image, successful. cbn [filter map fst snd].
  rewrite Ha, Hb, Hc, !image_empty_fails.
  destruct (fails last_image a), (fails last_image b), (fails last_image c); reflexivity.
Qed.

Lemma successful_length {A} loop (a b c : ApiResult) (x y z : A) :
  failures loop [a; b; c] = 1 ->
  List.length (successful loop [(a, x); (b, y); (c, z)]) = 2.
Proof.
  unfold failures, successful. cbn [filter map fst snd].
  destruct (fails loop a), (fails loop b), (fails loop c); cbn; congruence.
Qed.

(** C2, counterexample.  When the first of the three hybrid calls throws
    and the other two return images, [generateHybridConcepts] rejects: no
    list of two variants is returned. *)
Lemma hybrid_batch_rejects_on_thrown_call :
  failures last_image [ApiThrows "503"; png "BBBB"; png "CCCC"] = 1
  /\ generateHybridConcepts Sample.brief Sample.research [Sample.option1] "mix"
       (ApiThrows "503") (png "BBBB") (png "CCCC") "u1" "u2" "u3"
     = Rejected "503"
  /\ ~ (exists l,
          generateHybridConcepts Sample.brief Sample.research [Sample.option1] "mix"
            (ApiThrows "503") (png "BBBB") (png "CCCC") "u1" "u2" "u3"
          = Fulfilled l /\ List.length l = 2).
Proof.
  split; [reflexivity|]. split; [reflexivity|].
  intros [l [H _]]. discriminate H.
Qed.

(** C2, as amended.  In a batch of three calls of which exactly one fails
    (throws or yields no image), the initial proposals and the multi-angle
    views return exactly the two successful members in call order.  The
    hybrid variants do so when no call throws, the failed call having
    returned no image; when a hybrid call throws, the batch is rejected. *)
Theorem batch_with_one_failed_call :
  (forall brief research a b c ua ub uc,
      failures last_image [a; b; c] = 1 ->
      exists l,
        generateArchitecturalConcepts brief research a b c ua ub uc = Fulfilled l
        /\ List.length l = 2
        /\ l = successful last_image
                 [(a, conceptA brief a ua); (b, conceptB brief b ub); (c, conceptC brief c uc)])
  /\ (forall baseImage brief a b c,
      failures first_image [a; b; c] = 1 ->
      exists l,
        generateMultiAngleViews baseImage brief a b c = Fulfilled l
        /\ List.length l = 2
        /\ l = successful first_image
                 [(a, image first_image a); (b, image first_image b); (c, image first_image c)])
  /\ (forall brief research options g a b c u1 u2 u3,
      failures last_image [a; b; c] = 1 ->
      throws a = false -> throws b = false -> throws c = false ->
      exists l,
        generateHybridConcepts brief research options g a b c u1 u2 u3 = Fulfilled l
        /\ List.length l = 2
        /\ l = successful last_image
                 [(a, hybrid1 g a u1); (b, hybrid2 g b u2); (c, hybrid3 g c u3)])
  /\ (forall brief research options g a b c u1 u2 u3,
      throws a = true \/ throws b = true \/ throws c = true ->
      exists e,
        generateHybridConcepts brief research options g a b c u1 u2 u3 = Rejected e).
Proof.
  split; [|split; [|split]].
  - intros brief research a b c ua ub uc H1.
    eexists. split; [|split].
    + unfold generateArchitecturalConcepts, promiseA, promiseB, promiseC.
      rewrite !generateOne_fulfils. cbn [Promise_all].
      rewrite (keep_with_image_successful a b c) by reflexivity. reflexivity.
    + now apply successful_length.
    + reflexivity.
  - intros baseImage brief a b c H1.
    eexists. split; [|split].
    + unfold generateMultiAngleViews. rewrite !generateAngle_fulfils.
      cbn [Promise_all]. reflexivity.
    + revert H1. unfold failures. cbn [filter].
      rewrite <- !image_empty_fails.
      destruct (image first_image a =? ""), (image first_image b =? ""),
        (image first_image c =? ""); cbn; congruence.
    + unfold successful. cbn [filter map fst snd]. rewrite <- !image_empty_fails.
      destruct (image first_image a =? ""), (image first_image b =? ""),
        (image first_image c =? ""); reflexivity.
  - intros brief research options g a b c u1 u2 u3 H1 Ta Tb Tc.
    eexists. split; [|split].
    + unfold generateHybridConcepts, promise1, promise2, promise3.
      rewrite !generateVariant_fulfils by assumption. cbn [Promise_all].
      rewrite (keep_with_image_successful a b c) by reflexivity. reflexivity.
    + now apply successful_length.
    + reflexivity.
  - intros brief research options g a b c u1 u2 u3 T.
    unfold generateHybridConcepts, promise1, promise2, promise3.
    destruct (throws a) eqn:Ta.
    { destruct (generateVariant_rejects g "Balanced Synthesis"
        "Create a perfectly balanced mix of the input designs, harmonizing their best features."
        a u1 Ta) as [e ->].
      now exists e. }
    rewrite (generateVariant_fulfils _ _ _ a u1 Ta).
    destruct (throws b) eqn:Tb.
    { destruct (generateVariant_rejects g "Bold Interpretation"
        "Take the most dramatic elements from the inputs and amplify them. Focus on material contrast."
        b u2 Tb) as [e ->].
      now exists e. }
    rewrite (generateVariant_fulfils _ _ _ b u2 Tb).
    destruct (throws c) eqn:Tc.
    { destruct (generateVariant_rejects g "Subtle Integration"
        "Create a refined, understated version. Blend the concepts seamlessly with a focus on elegance and the prompt instructions."
        c u3 Tc) as [e ->].
      now exists e. }
    destruct T as [T | [T | T]]; discriminate T.
Qed.

End Batches.


Lemma batch_with_one_failed_call_witness :
  (exists l,
      Gemini.generateArchitecturalConcepts Sample.brief Sample.research
        (Gemini.ApiThrows "503") (Batch.png "BBBB") (Batch.png "CCCC") "u1" "u2" "u3"
      = Fulfilled l
      /\ List.length l = 2
      /\ l = Batch.successful Gemini.last_image
               [(Gemini.ApiThrows "503", Batch.conceptA Sample.brief (Gemini.ApiThrows "503") "u1");
                (Batch.png "BBBB", Batch.conceptB Sample.brief (Batch.png "BBBB") "u2");
                (Batch.png "CCCC", Batch.conceptC Sample.brief (Batch.png "CCCC") "u3")])
  /\ (exists l,
      Gemini.generateMultiAngleViews "data:image/png;base64,AAAA" Sample.brief
        (Batch.png "BBBB") Batch.textOnly (Batch.png "CCCC")
      = Fulfilled l
      /\ List.length l = 2
      /\ l = Batch.successful Gemini.first_image
               [(Batch.png "BBBB", Batch.image Gemini.first_image (Batch.png "BBBB"));
                (Batch.textOnly, Batch.image Gemini.first_image Batch.textOnly);
                (Batch.png "CCCC", Batch.image Gemini.first_image (Batch.png "CCCC"))])
  /\ (exists l,
      Gemini.generateHybridConcepts Sample.brief Sample.research [Sample.option1] "mix"
        (Batch.png "BBBB") (Batch.png "CCCC") Batch.textOnly "u1" "u2" "u3"
      = Fulfilled l
      /\ List.length l = 2
      /\ l = Batch.successful Gemini.last_image
               [(Batch.png "BBBB", Batch.hybrid1 "mix" (Batch.png "BBBB") "u1");
                (Batch.png "CCCC", Batch.hybrid2 "mix" (Batch.png "CCCC") "u2");
                (Batch.textOnly, Batch.hybrid3 "mix" Batch.textOnly "u3")])
  /\ (exists e,
      Gemini.generateHybridConcepts Sample.brief Sample.research [Sample.option1] "mix"
        (Batch.png "BBBB") (Gemini.ApiThrows "503") (Batch.png "CCCC") "u1" "u2" "u3"
      = Rejected e).
Proof.
  split; [|split; [|split]].
  - apply (proj1 batch_with_one_failed_call). reflexivity.
  - apply (proj1 (proj2 batch_with_one_failed_call)). reflexivity.
  - apply (proj1 (proj2 (proj2 batch_with_one_failed_call))); reflexivity.
  - apply (proj2 (proj2 (proj2 batch_with_one_failed_call))). right. left. reflexivity.
Defined.

(** ** The project archive *)

Section Archive.

Import App.

Lemma find_map_preserving {A} (f : A -> bool) (g : A -> A) (l : list A) :
  (forall x, f (g x) = f x) ->
  find f (map g l) = option_map g (find f l).
Proof.
  intros Hg. induction l as [|x l IH]; [reflexivity|].
  cbn [map find]. rewrite Hg. destruct (f x); [reflexivity|exact IH].
Qed.

Lemma found_find_absent {A} (f : A -> bool) (l : list A) :
  (forall x, In x l -> f x = false) -> found (find f l) = false.
Proof.
  intros H. destruct (find f l) as [x|] eqn:E; [|reflexivity].
  apply find_some in E. destruct E as [Hin Hf]. rewrite (H x Hin) in Hf. discriminate.
Qed.

Lemma found_find_present {A} (f : A -> bool) (l : list A) (x : A) :
  In x l -> f x = true -> found (find f l) = true.
Proof.
  intros Hin Hf. destruct (find f l) eqn:E; [reflexivity|].
  rewrite (find_none f l E x Hin) in Hf. discriminate.
Qed.

Lemma filter_absent {A} (f : A -> bool) (l : list A) :
  (forall x, In x l -> f x = false) -> filter f l = [].
Proof.
  induction l as [|x l IH]; [reflexivity|].
  intros H. cbn [filter]. rewrite (H x (or_introl eq_refl)).
  apply IH. intros y Hy. apply H. now right.
Qed.

Lemma newImage_id stage now uuid img i :
  ArchivedImage.p_id img = Some i -> i <> "" ->
  ArchivedImage.id (newImage stage now uuid img) = i.
Proof.
  intros Hi Hne. unfold newImage. cbn [ArchivedImage.id]. rewrite Hi. cbn [or_else].
  destruct i; [contradiction|reflexivity].
Qed.

(* The list [addToArchive] returns when it does write. *)
Local Abbreviation prepended currentProjectId new prev :=
  (map (fun p => if has_id currentProjectId p
                 then with_images p (new :: Project.images p) else p) prev).

(** C4.  [addToArchive] returns the list unchanged when no project has the
    current id, and when the project found already holds an image with the
    id of the new one.  Otherwise the list keeps its length, every project
    with another id keeps its place and content, and the project with the
    current id gets the new image at the head of its images.  Archiving an
    image id a second time changes nothing, so the project holds one copy. *)
Theorem addToArchive_cases (stage : AppStage) (currentProjectId : string)
        (now : Z) (uuid : string) (img : ArchivedImage.partial) (prev : list Project.t) :
  let new := newImage stage now uuid img in
  let next := addToArchive stage currentProjectId now uuid img prev in
  (find (has_id currentProjectId) prev = None -> next = prev)
  /\ (forall proj i,
         find (has_id currentProjectId) prev = Some proj ->
         In i (Project.images proj) -> ArchivedImage.id i = ArchivedImage.id new ->
         next = prev)
  /\ (forall proj,
         find (has_id currentProjectId) prev = Some proj ->
         (forall i, In i (Project.images proj) -> ArchivedImage.id i <> ArchivedImage.id new) ->
         List.length next = List.length prev
         /\ (forall k p, nth_error prev k = Some p ->
                         nth_error next k
                         = Some (if Project.id p =? currentProjectId
                                 then with_images p (new :: Project.images p)
                                 else p))
         /\ find (has_id currentProjectId) next
            = Some (with_images proj (new :: Project.images proj)))
  /\ (forall proj id stage' now' uuid',
         ArchivedImage.p_id img = Some id -> id <> "" ->
         find (has_id currentProjectId) prev = Some proj ->
         (forall i, In i (Project.images proj) -> ArchivedImage.id i <> id) ->
         addToArchive stage' currentProjectId now' uuid' img next = next
         /\ exists proj',
             find (has_id currentProjectId) next = Some proj'
             /\ List.length (filter (fun i => ArchivedImage.id i =? id) (Project.images proj')) = 1).
Proof.
  intros new next.
  assert (Hwrite : forall proj,
             find (has_id currentProjectId) prev = Some proj ->
             (forall i, In i (Project.images proj) -> ArchivedImage.id i <> ArchivedImage.id new) ->
             next = prepended currentProjectId new prev).
  { intros proj Hf Hno. subst next. unfold addToArchive. fold new. rewrite Hf.
    rewrite found_find_absent; [reflexivity|].
    intros i Hi. apply String.eqb_neq. now apply Hno. }
  assert (Hfind : forall proj,
             find (has_id currentProjectId) prev = Some proj ->
             find (has_id currentProjectId) (prepended currentProjectId new prev)
             = Some (with_images proj (new :: Project.images proj))).
  { intros proj Hf. rewrite find_map_preserving.
    - rewrite Hf. cbn [option_map]. apply find_some in Hf. destruct Hf as [_ Hid].
      now rewrite Hid.
    - intros x. destruct (has_id currentProjectId x) eqn:E; [|exact E].
      unfold has_id, with_images. cbn [Project.id]. exact E. }
  split; [|split; [|split]].
  - intros Hf. subst next. unfold addToArchive. now rewrite Hf.
  - intros proj i Hf Hin Hid. subst next. unfold addToArchive. fold new. rewrite Hf.
    rewrite (found_find_present _ _ i Hin); [reflexivity|].
    now apply String.eqb_eq.
  - intros proj Hf Hno. rewrite (Hwrite proj Hf Hno). split; [|split].
    + apply length_map.
    + intros k p Hk. rewrite nth_error_map, Hk. reflexivity.
    + now apply Hfind.
  - intros proj id stage' now' uuid' Hid Hne Hf Hno.
    assert (Hnew : ArchivedImage.id new = id) by now apply newImage_id.
    assert (Hno' : forall i, In i (Project.images proj) ->
                             ArchivedImage.id i <> ArchivedImage.id new).
    { intros i Hi. rewrite Hnew. now apply Hno. }
    rewrite (Hwrite proj Hf Hno'). split.
    + unfold addToArchive. rewrite (Hfind proj Hf).
      rewrite (found_find_present _ _ new); [reflexivity|now left|].
      apply String.eqb_eq. rewrite Hnew. symmetry. now apply newImage_id.
    + eexists. split; [exact (Hfind proj Hf)|].
      unfold with_images. cbn [Project.images filter].
      rewrite Hnew, String.eqb_refl. cbn [List.length]. f_equal.
      rewrite filter_absent; [reflexivity|].
      intros i Hi. apply String.eqb_neq. now apply Hno.
Qed.

End Archive.


Lemma addToArchive_cases_witness :
  let img := ArchivedImage.mkPartial (Some "i1") (Some "data:image/png;base64,AAAA")
                                     (Some "CONCEPT") None in
  let new := App.newImage PROPOSAL 5%Z "u" img in
  let once := App.addToArchive PROPOSAL "p1" 5%Z "u" img [Sample.project []] in
  App.addToArchive PROPOSAL "p2" 5%Z "u" img [Sample.project []] = [Sample.project []]
  /\ App.addToArchive PROPOSAL "p1" 5%Z "u" img [Sample.project [new]] = [Sample.project [new]]
  /\ (List.length once = 1
      /\ (forall k p, nth_error [Sample.project []] k = Some p ->
                      nth_error once k
                      = Some (if Project.id p =? "p1"
                              then App.with_images p (new :: Project.images p) else p))
      /\ find (App.has_id "p1") once = Some (App.with_images (Sample.project []) [new]))
  /\ (App.addToArchive REFINEMENT "p1" 9%Z "w" img once = once
      /\ exists proj',
          find (App.has_id "p1") once = Some proj'
          /\ List.length (filter (fun i => ArchivedImage.id i =? "i1") (Project.images proj')) = 1).
Proof.
  intros img new once. split; [|split; [|split]].
  - apply (proj1 (addToArchive_cases PROPOSAL "p2" 5%Z "u" img [Sample.project []])).
    reflexivity.
  - apply (proj1 (proj2 (addToArchive_cases PROPOSAL "p1" 5%Z "u" img [Sample.project [new]]))
             (Sample.project [new]) new).
    + reflexivity.
    + left. reflexivity.
    + reflexivity.
  - apply (proj1 (proj2 (proj2 (addToArchive_cases PROPOSAL "p1" 5%Z "u" img [Sample.project []])))
             (Sample.project [])).
    + reflexivity.
    + intros i [].
  - apply (proj2 (proj2 (proj2 (addToArchive_cases PROPOSAL "p1" 5%Z "u" img [Sample.project []])))
             (Sample.project []) "i1" REFINEMENT 9%Z "w").
    + reflexivity.
    + discriminate.
    + reflexivity.
    + intros i [].
Defined.

(** ** Loading a project *)

(** C8.  [loadProject] enters the final stage whenever the project has a
    non-empty final image, whatever its other fields hold; without one it
    enters the proposal stage when research is present and the briefing
    stage otherwise. *)
Theorem loadProject_stage (project : Project.t) (s : App.State) :
  (forall image, Project.finalImage project = Some image -> image <> "" ->
                 App.stage (App.loadProject project s) = FINAL)
  /\ (Project.finalImage project = None \/ Project.finalImage project = Some "" ->
      forall research, Project.research project = Some research ->
                       App.stage (App.loadProject project s) = PROPOSAL)
  /\ (Project.finalImage project = None \/ Project.finalImage project = Some "" ->
      Project.research project = None ->
      App.stage (App.loadProject project s) = BRIEFING).
Proof.
  unfold App.loadProject. cbn [App.stage]. split; [|split].
  - intros image -> Hne. destruct image; [contradiction|reflexivity].
  - intros [-> | ->] research ->; reflexivity.
  - intros [-> | ->] ->; reflexivity.
Qed.

Lemma loadProject_stage_witness :
  let s := App.mkState REFINEMENT None None None "" [] [] "p0" true in
  let withFinal :=
    Project.mk "p1" "Museum in Riyadh" 1%Z Sample.brief None [] (Some "data:image/png;base64,AAAA") in
  let withResearch :=
    Project.mk "p2" "Museum in Riyadh" 1%Z Sample.brief (Some Sample.research) [] (Some "") in
  let bare := Project.mk "p3" "Unnamed Project" 1%Z Sample.brief None [] None in
  App.stage (App.loadProject withFinal s) = FINAL
  /\ App.stage (App.loadProject withResearch s) = PROPOSAL
  /\ App.stage (App.loadProject bare s) = BRIEFING.
Proof.
  intros s withFinal withResearch bare. split; [|split].
  - apply (proj1 (loadProject_stage withFinal s) "data:image/png;base64,AAAA").
    + reflexivity.
    + discriminate.
  - apply (proj1 (proj2 (loadProject_stage withResearch s))) with (research := Sample.research).
    + right. reflexivity.
    + reflexivity.
  - apply (proj2 (proj2 (loadProject_stage bare s))).
    + left. reflexivity.
    + reflexivity.
Defined.

(** ** The refinement session *)

Section Refinement.

Import RefinementStep.

Variable selectedOption : GeneratedOption.t.
Variable briefData : BriefingData.t.
Variable toLocaleTimeString : Z -> string.

Local Abbreviation initial := (RefinementStep.initial selectedOption).
Local Abbreviation handleSend_resume := (RefinementStep.handleSend_resume briefData).
Local Abbreviation restoreVersion := (RefinementStep.restoreVersion toLocaleTimeString).
Local Abbreviation step := (RefinementStep.step briefData toLocaleTimeString).
Local Abbreviation run := (RefinementStep.run briefData toLocaleTimeString).
Local Abbreviation appends := (RefinementStep.appends briefData).
Local Abbreviation appended := (RefinementStep.appended briefData toLocaleTimeString).

Lemma initial_gated now : gated (initial now).
Proof. left. split; reflexivity. Qed.

Lemma handleSend_accepts o uuid s :
  rejected o s = false ->
  handleSend o uuid s
  = mkState (currentImage s) (historyVersions s)
            (chatHistory s ++ [userMsg uuid (promptText o s)])
            "" true
            (inflight s ++ [mkRequest (currentImage s) (promptText o s)])
            (archived s).
Proof. intros H. unfold handleSend. now rewrite H. Qed.

Lemma handleSend_blocked o uuid s :
  isProcessing s = true -> handleSend o uuid s = s.
Proof.
  intros H. unfold handleSend, rejected. rewrite H, orb_true_r. reflexivity.
Qed.

Lemma step_gated s e : gated s -> gated (step s e).
Proof.
  intros G. destruct e as [o u | api u1 u2 now | v u | value]; cbn [RefinementStep.step].
  - destruct (rejected o s) eqn:R.
    + unfold handleSend. now rewrite R.
    + rewrite (handleSend_accepts _ _ _ R). right. cbn. split; [reflexivity|].
      unfold rejected in R. apply orb_false_elim in R. destruct R as [_ P].
      destruct G as [[_ I] | [P' _]]; [|congruence].
      rewrite I. now eexists.
  - unfold RefinementStep.handleSend_resume.
    destruct G as [[P I] | [P [r I]]].
    + rewrite I. now left.
    + rewrite I. left. destruct (refined briefData r api); split; reflexivity.
  - exact G.
  - exact G.
Qed.

Lemma run_gated es s : gated s -> gated (run es s).
Proof.
  revert s. induction es as [|e es IH]; intros s G; [exact G|].
  cbn [RefinementStep.run fold_left]. apply IH. now apply step_gated.
Qed.

(** Each event extends the ledger at its end, by one version exactly when it
    is the settlement of a request with a new image. *)
Lemma step_history s e :
  exists tail,
    historyVersions (step s e) = (historyVersions s ++ tail)%list
    /\ List.length tail = if appends s e then 1 else 0.
Proof.
  destruct e as [o u | api u1 u2 now | v u | value];
    cbn [RefinementStep.step RefinementStep.appends].
  - exists []. rewrite app_nil_r. split; [|reflexivity].
    unfold handleSend. destruct (rejected o s); reflexivity.
  - unfold RefinementStep.handleSend_resume.
    destruct (inflight s) as [|r rest].
    + exists []. now rewrite app_nil_r.
    + destruct (refined briefData r api) as [url|]; cbn [found historyVersions].
      * eexists. split; reflexivity.
      * exists []. now rewrite app_nil_r.
  - exists []. now rewrite app_nil_r.
  - exists []. now rewrite app_nil_r.
Qed.

Lemma run_history es s :
  List.length (historyVersions (run es s)) = appended es s + List.length (historyVersions s)
  /\ forall v, nth_error (historyVersions s) 0 = Some v ->
               nth_error (historyVersions (run es s)) 0 = Some v.
Proof.
  revert s. induction es as [|e es IH]; intros s; [split; [reflexivity|auto]|].
  cbn [RefinementStep.run fold_left RefinementStep.appended].
  destruct (IH (step s e)) as [IHlen IHhd].
  destruct (step_history s e) as [tail [Ht Hl]].
  split.
  - unfold RefinementStep.run in IHlen. rewrite IHlen, Ht, length_app, Hl. lia.
  - intros v Hv. apply IHhd. rewrite Ht.
    destruct (historyVersions s); [discriminate Hv|exact Hv].
Qed.

Example one_refinement_appends_one_version :
  historyVersions
    (RefinementStep.run Sample.brief Sample.timeOfDay
       [Send (Some "make it night time") "u0"; Settle (Batch.png "NNNN") "u1" "u2" 7%Z]
       (RefinementStep.initial Sample.option1 0%Z))
  = [DesignVersion.mk "v0" "data:image/png;base64,AAAA" 0%Z "Original Concept";
     DesignVersion.mk "u1" "data:image/png;base64,NNNN" 7%Z "make it night time"].
Proof. reflexivity. Qed.

(** C5.  After any sequence of events of a refinement session, the ledger
    holds one version more than the number of refinements that ended with a
    new image, and its first element is still the seeded version, whose
    instruction text is "Original Concept". *)
Theorem ledger_length_and_origin (es : list Event) (now0 : Z) :
  let s := run es (initial now0) in
  List.length (historyVersions s) = appended es (initial now0) + 1
  /\ nth_error (historyVersions s) 0
     = Some (DesignVersion.mk "v0" (GeneratedOption.imageUrl selectedOption) now0
                              "Original Concept")
  /\ option_map DesignVersion.prompt (nth_error (historyVersions s) 0)
     = Some "Original Concept".
Proof.
  intros s. subst s.
  destruct (run_history es (initial now0)) as [Hlen Hhd].
  specialize (Hhd _ eq_refl).
  split; [exact Hlen|]. split; [exact Hhd|]. now rewrite Hhd.
Qed.

(** C6.  [restoreVersion] leaves the ledger as it is and appends exactly one
    entry to the conversation log; of the other state it changes only the
    current image, which becomes that of the restored version. *)
Theorem restoreVersion_frame (version : DesignVersion.t) (uuid : string) (s : State) :
  let s' := restoreVersion version uuid s in
  historyVersions s' = historyVersions s
  /\ chatHistory s' = (chatHistory s ++ [restoreMsg toLocaleTimeString version uuid])%list
  /\ List.length (chatHistory s') = List.length (chatHistory s) + 1
  /\ currentImage s' = DesignVersion.imageUrl version
  /\ input s' = input s
  /\ isProcessing s' = isProcessing s
  /\ inflight s' = inflight s
  /\ archived s' = archived s.
Proof.
  cbn. repeat split. rewrite length_app. reflexivity.
Qed.

(** C3.  In a reachable state of a session, a submission that passes the
    guard and whose call is rejected, or fulfilled with the empty string,
    issues that one call and then leaves the ledger, the current image and
    the archive calls as they were; the conversation log gains the user's
    turn followed by one error turn. *)
Theorem failed_refinement_only_logs_error
        (es : list Event) (now0 : Z) (o : option string) (uuid : string)
        (api : Gemini.ApiResult) (u1 u2 : string) (now : Z) :
  let s := run es (initial now0) in
  let sent := handleSend o uuid s in
  let done := handleSend_resume api u1 u2 now sent in
  rejected o s = false ->
  (exists e, Gemini.refineArchitecturalImage (currentImage s) (promptText o s) briefData api
             = Rejected e)
  \/ Gemini.refineArchitecturalImage (currentImage s) (promptText o s) briefData api
     = Fulfilled "" ->
  inflight sent = [mkRequest (currentImage s) (promptText o s)]
  /\ historyVersions done = historyVersions s
  /\ currentImage done = currentImage s
  /\ chatHistory done
     = (chatHistory s ++ [userMsg uuid (promptText o s); errorMsg u1])%list
  /\ archived done = archived s
  /\ isProcessing done = false
  /\ inflight done = [].
Proof.
  intros s sent done R F.
  assert (G : gated s) by (apply run_gated, initial_gated).
  assert (I : inflight s = []).
  { unfold rejected in R. apply orb_false_elim in R. destruct R as [_ P].
    destruct G as [[_ I] | [P' _]]; [exact I|congruence]. }
  assert (N : refined briefData (mkRequest (currentImage s) (promptText o s)) api = None).
  { unfold refined, outcome. cbn [sentImage userMsgText].
    destruct F as [[e ->] | ->]; reflexivity. }
  subst done sent. rewrite (handleSend_accepts _ _ _ R).
  unfold RefinementStep.handleSend_resume. cbn [inflight]. rewrite I. cbn [app].
  rewrite N. cbn. rewrite <- app_assoc. repeat split.
Qed.

(** C7.  In every reachable state of a session at most one refinement call
    is outstanding, and one is outstanding exactly while [isProcessing] is
    set.  While it is set the send button is disabled and [handleSend]
    returns the state as it is, issuing no call; the settlement of the
    outstanding call clears the flag. *)
Theorem single_refinement_in_flight (es : list Event) (now0 : Z) :
  let s := run es (initial now0) in
  List.length (inflight s) <= 1
  /\ (isProcessing s = true ->
      List.length (inflight s) = 1
      /\ sendDisabled s = true
      /\ forall o uuid, handleSend o uuid s = s)
  /\ (isProcessing s = false -> inflight s = [])
  /\ (forall api u1 u2 now,
         isProcessing (handleSend_resume api u1 u2 now s) = false
         /\ inflight (handleSend_resume api u1 u2 now s) = []).
Proof.
  intros s.
  assert (G : gated s) by (apply run_gated, initial_gated).
  split; [|split; [|split]].
  - destruct G as [[_ I] | [_ [r I]]]; rewrite I; cbn; lia.
  - intros P. split; [|split].
    + destruct G as [[P' _] | [_ [r I]]]; [congruence|now rewrite I].
    + unfold sendDisabled. rewrite P. apply orb_true_r.
    + intros o uuid. now apply handleSend_blocked.
  - intros P. destruct G as [[_ I] | [P' _]]; [exact I|congruence].
  - intros api u1 u2 now. unfold RefinementStep.handleSend_resume.
    destruct G as [[P I] | [_ [r I]]]; rewrite I.
    + now split.
    + destruct (refined briefData r api); split; reflexivity.
Qed.

End Refinement.

Lemma failed_refinement_only_logs_error_witness :
  let s := RefinementStep.initial Sample.option1 0%Z in
  let sent := RefinementStep.handleSend (Some "make it night time") "u0" s in
  let done := RefinementStep.handleSend_resume Sample.brief (Gemini.ApiThrows "503")
                "u1" "u2" 7%Z sent in
  RefinementStep.inflight sent
  = [RefinementStep.mkRequest "data:image/png;base64,AAAA" "make it night time"]
  /\ RefinementStep.historyVersions done = RefinementStep.historyVersions s
  /\ RefinementStep.currentImage done = RefinementStep.currentImage s
  /\ RefinementStep.chatHistory done
     = (RefinementStep.chatHistory s
        ++ [RefinementStep.userMsg "u0" "make it night time"; RefinementStep.errorMsg "u1"])%list
  /\ RefinementStep.archived done = RefinementStep.archived s
  /\ RefinementStep.isProcessing done = false
  /\ RefinementStep.inflight done = [].
Proof.
  apply (failed_refinement_only_logs_error Sample.option1 Sample.brief Sample.timeOfDay
           [] 0%Z (Some "make it night time") "u0" (Gemini.ApiThrows "503") "u1" "u2" 7%Z).
  - reflexivity.
  - left. exists "503". reflexivity.
Defined.

Lemma single_refinement_in_flight_witness :
  let s := RefinementStep.run Sample.brief Sample.timeOfDay
             [RefinementStep.Send (Some "make it night time") "u0"]
             (RefinementStep.initial Sample.option1 0%Z) in
  List.length (RefinementStep.inflight s) = 1
  /\ RefinementStep.sendDisabled s = true
  /\ forall o uuid, RefinementStep.handleSend o uuid s = s.
Proof.
  apply (proj1 (proj2 (single_refinement_in_flight Sample.option1 Sample.brief Sample.timeOfDay
                         [RefinementStep.Send (Some "make it night time") "u0"] 0%Z))).
  reflexivity.
Defined.

(** ** Completions that arrive after teardown *)

Lemma ResearchStep_discards_after_teardown (research : completion ResearchData.t) :
  ResearchStep.runResearch_resume TornDown research = [].
Proof. destruct research; reflexivity. Qed.

Lemma FinalStep_discards_after_teardown (newAngles : settled (list string)) (now : nat -> Z) :
  FinalStep.loadAngles_resume TornDown newAngles now = [].
Proof. destruct newAngles; reflexivity. Qed.

Lemma ProposalStep_ignores_teardown (generated : settled (list GeneratedOption.t)) :
  ProposalStep.fetchOptions_resume TornDown generated
  = ProposalStep.fetchOptions_resume StillMounted generated.
Proof. reflexivity. Qed.

(** C9, evaluated on [ProposalStep].  The proposal step is torn down while
    its three generation calls are outstanding; of these the first then
    returns an image.  The continuation of [fetchOptions] still calls
    [onArchive] and the two state setters, and the archive call prepends the
    image to the project the step was mounted for. *)
Theorem ProposalStep_archives_after_teardown :
  let generated :=
    Gemini.generateArchitecturalConcepts Sample.brief Sample.research
      (Batch.png "AAAA") (Gemini.ApiThrows "503") (Gemini.ApiThrows "503") "o1" "o2" "o3" in
  let concept :=
    GeneratedOption.mk "o1" "The Direct Vision"
      "A literal interpretation of your specific prompt requirements."
      "data:image/png;base64,AAAA" LITERAL in
  let mutations := ProposalStep.fetchOptions_resume TornDown generated in
  let stored :=
    ArchivedImage.mk "o1" "data:image/png;base64,AAAA" PROPOSAL 42%Z
      (Some "The Direct Vision: A literal interpretation of your specific prompt requirements.")
      "CONCEPT" in
  generated = Fulfilled [concept]
  /\ mutations = [ProposalStep.archiveConcept concept; setOptions [concept]; setLoading false]
  /\ archive_writes PROPOSAL "p1" (fun _ => 42%Z) (fun _ => "u") 0 mutations [Sample.project []]
     = [Sample.project [stored]]
  /\ archive_writes PROPOSAL "p1" (fun _ => 42%Z) (fun _ => "u") 0 mutations [Sample.project []]
     <> [Sample.project []].
Proof.
  cbv zeta. split; [reflexivity|]. split; [reflexivity|]. split; [reflexivity|].
  discriminate.
Qed.

(** ** The cap on inspiration images *)

Section InspirationCap.

Import BriefingStep.

Lemma remove_nth_length {A} (i : nat) (l : list A) :
  List.length (remove_nth i l) <= List.length l.
Proof.
  revert i. induction l as [|x l IH]; intros i; [destruct i; reflexivity|].
  destruct i as [|j]; cbn [remove_nth List.length]; [lia|].
  specialize (IH j). lia.
Qed.

Lemma nth_error_last {A} (l : list A) (x : A) :
  nth_error (l ++ [x]) (List.length l) = Some x.
Proof. induction l as [|y l IH]; [reflexivity|exact IH]. Qed.

(** An addition that nothing overlaps appends [min k (10 - n)] images. *)
Lemma addFiles_length (files : list File) (s : State) :
  List.length (inspirationImages (addFiles files s))
  = List.length (inspirationImages s)
    + Nat.min (List.length files) (10 - List.length (inspirationImages s)).
Proof.
  unfold addFiles, handleInspirationChange.
  destruct (10 - Z.of_nat (List.length (inspirationImages s)) <=? 0)%Z eqn:E.
  - apply Z.leb_le in E.
    unfold readsComplete.
    replace (nth_error (reading s) (List.length (reading s))) with (@None (list File)).
    + lia.
    + symmetry. apply nth_error_None. lia.
  - apply Z.leb_gt in E. unfold readsComplete. cbn [reading inspirationImages].
    rewrite nth_error_last. cbn [inspirationImages].
    rewrite length_app, length_firstn. lia.
Qed.

Lemma addFiles_bounded (files : list File) (s : State) :
  List.length (inspirationImages s) <= 10 ->
  List.length (inspirationImages (addFiles files s)) <= 10.
Proof. intros H. rewrite addFiles_length. lia. Qed.

Lemma removeInspirationImage_bounded (index : nat) (s : State) :
  List.length (inspirationImages s) <= 10 ->
  List.length (inspirationImages (removeInspirationImage index s)) <= 10.
Proof.
  intros H. cbn [removeInspirationImage inspirationImages].
  pose proof (remove_nth_length index (inspirationImages s)). lia.
Qed.

(** C10, evaluated.  Ten files are chosen for an empty list and, before
    their reads end, one more file is chosen: both handlers see an empty
    list, both batches are read in full, and the list ends with eleven
    images. *)
Theorem overlapping_additions_exceed_ten :
  let s := run [Change (Some Sample.tenFiles); Change (Some ["g0"]);
                ReadsDone 0; ReadsDone 0] initial in
  inspirationImages s = (Sample.tenFiles ++ ["g0"])%list
  /\ List.length (inspirationImages s) = 11
  /\ reading s = []
  /\ addTileShown (run [Change (Some Sample.tenFiles)] initial) = true.
Proof. cbv zeta. repeat split. Qed.

End InspirationCap.

(* ================================================================= *)
(** * Further properties of the code *)

(** ** The project store *)

Section Store.

Import App Controller Flow.


Lemma spread_id p updates : u_id updates = None -> Project.id (spread p updates) = Project.id p.
Proof. intros H. unfold spread. cbn. now rewrite H. Qed.



(** X1.  An upsert that carries no [id] key creates the project of the
    current id at the head of the list when the list has none, and changes
    nothing but the projects of that id otherwise; in both cases the stored
    images of every project already in the list are kept unless the update
    carries an [images] key. *)
Theorem updateCurrentProject_upserts
        (briefData : option BriefingData.t) (currentProjectId : string) (now : Z)
        (updates : partialProject) (prev : list Project.t) :
  let next := updateCurrentProject briefData currentProjectId now updates prev in
  u_id updates = None ->
  (find (has_id currentProjectId) prev = None ->
   exists created,
     next = created :: prev
     /\ Project.id created = currentProjectId
     /\ (u_images updates = None -> Project.images created = [])
     /\ (u_name updates = None ->
         Project.name created = match briefData with
                                | Some b => projectName b
                                | None => "Unnamed Project"
                                end))
  /\ (forall existing, find (has_id currentProjectId) prev = Some existing ->
      List.length next = List.length prev
      /\ (forall k p, nth_error prev k = Some p ->
                      nth_error next k
                      = Some (if Project.id p =? currentProjectId
                              then spread p updates else p))
      /\ find (has_id currentProjectId) next = Some (spread existing updates)
      /\ (u_images updates = None -> map Project.images next = map Project.images prev)).
Proof.
  intros next Hid. subst next. unfold updateCurrentProject. split.
  - intros Hf. rewrite Hf. cbn [found]. eexists. split; [reflexivity|].
    split; [now apply spread_id|]. split.
    + intros Hi. unfold spread. cbn. now rewrite Hi.
    + intros Hn. unfold spread. cbn. now rewrite Hn.
  - intros existing Hf. rewrite Hf. cbn [found]. split; [apply length_map|]. split; [|split].
    + intros k p Hk. rewrite nth_error_map, Hk. reflexivity.
    + rewrite find_map_preserving.
      * rewrite Hf. cbn [option_map]. apply find_some in Hf. destruct Hf as [_ E].
        now rewrite E.
      * intros x. destruct (has_id currentProjectId x) eqn:E; [|exact E].
        unfold has_id. rewrite spread_id by exact Hid. exact E.
    + intros Hi. rewrite map_map. apply map_ext. intros p.
      destruct (has_id currentProjectId p); [|reflexivity].
      unfold spread. cbn. now rewrite Hi.
Qed.



End Store.

Lemma updateCurrentProject_upserts_witness :
  (exists created,
      Controller.updateCurrentProject (Some Sample.brief) "p1" 5%Z
        (Controller.onlyResearch Sample.research) []
      = [created]
      /\ Project.id created = "p1"
      /\ (Controller.u_images (Controller.onlyResearch Sample.research) = None ->
          Project.images created = [])
      /\ (Controller.u_name (Controller.onlyResearch Sample.research) = None ->
          Project.name created = "Museum in Riyadh"))
  /\ (List.length (Controller.updateCurrentProject None "p1" 5%Z
                     (Controller.onlyFinalImage "data:image/png;base64,AAAA")
                     [Sample.project []]) = 1
      /\ (forall k p, nth_error [Sample.project []] k = Some p ->
                      nth_error (Controller.updateCurrentProject None "p1" 5%Z
                                   (Controller.onlyFinalImage "data:image/png;base64,AAAA")
                                   [Sample.project []]) k
                      = Some (if Project.id p =? "p1"
                              then Controller.spread p
                                     (Controller.onlyFinalImage "data:image/png;base64,AAAA")
                              else p))
      /\ find (App.has_id "p1")
              (Controller.updateCurrentProject None "p1" 5%Z
                 (Controller.onlyFinalImage "data:image/png;base64,AAAA")
                 [Sample.project []])
         = Some (Controller.spread (Sample.project [])
                   (Controller.onlyFinalImage "data:image/png;base64,AAAA"))
      /\ (Controller.u_images (Controller.onlyFinalImage "data:image/png;base64,AAAA") = None ->
          map Project.images
              (Controller.updateCurrentProject None "p1" 5%Z
                 (Controller.onlyFinalImage "data:image/png;base64,AAAA")
                 [Sample.project []])
          = map Project.images [Sample.project []])).
Proof.
  split.
  - apply (proj1 (updateCurrentProject_upserts (Some Sample.brief) "p1" 5%Z
                    (Controller.onlyResearch Sample.research) [] eq_refl)).
    reflexivity.
  - apply (proj2 (updateCurrentProject_upserts None "p1" 5%Z
                    (Controller.onlyFinalImage "data:image/png;base64,AAAA")
                    [Sample.project []] eq_refl) (Sample.project [])).
    reflexivity.
Defined.


(** ** The stage controller *)

Section Stages.

Import App Controller.

(** X3.  When the store has no project of the current id, completing the
    briefing and then the research leaves the proposal stage rendered with
    that brief and research, and puts one new project at the head of the
    store: named typology-in-location, stamped with the time of the briefing
    handler, holding the brief and the research, no image and no final
    image.  The projects already stored are unchanged. *)
Theorem briefing_then_research_creates_project
        (data : BriefingData.t) (research : ResearchData.t) (now now1 now2 : Z) (s : State) :
  let s' := handleResearchComplete research now2 (handleBriefingComplete data now now1 s) in
  find (has_id (currentProjectId s)) (projects s) = None ->
  projects s'
  = Project.mk (currentProjectId s)
               (BriefingData.typology data ++ " in " ++ BriefingData.location data)
               now data (Some research) [] None
    :: projects s
  /\ stage s' = PROPOSAL
  /\ rendered s' = Some (ProposalView data research)
  /\ currentProjectId s' = currentProjectId s.
Proof.
  intros s' Hf. subst s'.
  unfold handleResearchComplete, handleBriefingComplete. cbn [projects briefData currentProjectId].
  unfold updateCurrentProject at 2. rewrite Hf. cbn [found].
  unfold updateCurrentProject. cbn [find].
  unfold has_id at 1. unfold spread at 1. cbn [onlyBrief u_id override Project.id].
  rewrite String.eqb_refl. cbn [found map].
  unfold has_id at 1. cbn [spread onlyBrief u_id override Project.id].
  rewrite String.eqb_refl.
  assert (T : map (fun p => if has_id (currentProjectId s) p
                           then spread p (onlyResearch research) else p) (projects s)
              = projects s).
  { rewrite <- (map_id (projects s)) at 2. apply map_ext_in. intros p Hp.
    destruct (has_id (currentProjectId s) p) eqn:E; [|reflexivity].
    exfalso. pose proof (find_none _ _ Hf p Hp) as Hn. congruence. }
  rewrite T. repeat split.
Qed.

(** X4.  What is on screen after [loadProject].  A project with a non-empty
    final image and research shows the final step, which receives the
    conversation log of the session that was open before the load; with a
    non-empty final image and no research the stage is FINAL and no step is
    rendered.  Without a final image, research decides between the proposal
    step and the briefing form. *)
Theorem loadProject_rendered (project : Project.t) (s : State) :
  let s' := loadProject project s in
  (forall image research,
      Project.finalImage project = Some image -> image <> "" ->
      Project.research project = Some research ->
      rendered s' = Some (FinalView image (Project.brief project) research (chatHistory s)))
  /\ (forall image,
      Project.finalImage project = Some image -> image <> "" ->
      Project.research project = None ->
      stage s' = FINAL /\ rendered s' = None)
  /\ (forall research,
      truthy_opt (Project.finalImage project) = false ->
      Project.research project = Some research ->
      rendered s' = Some (ProposalView (Project.brief project) research))
  /\ (truthy_opt (Project.finalImage project) = false ->
      Project.research project = None ->
      rendered s' = Some BriefingView).
Proof.
  cbv zeta. unfold loadProject, rendered. cbn [stage finalImage briefData researchData chatHistory].
  split; [|split; [|split]].
  - intros image research -> Hne ->. destruct image; [contradiction|reflexivity].
  - intros image -> Hne ->. destruct image; [contradiction|]. split; reflexivity.
  - intros research Hf ->. rewrite Hf. reflexivity.
  - intros Hf ->. rewrite Hf. reflexivity.
Qed.

End Stages.

Lemma briefing_then_research_creates_project_witness :
  let s := App.mkState BRIEFING None None None "" [] [] "p1" false in
  let s' := Controller.handleResearchComplete Sample.research 3%Z
              (Controller.handleBriefingComplete Sample.brief 1%Z 2%Z s) in
  App.projects s'
  = [Project.mk "p1" "Museum in Riyadh" 1%Z Sample.brief (Some Sample.research) [] None]
  /\ App.stage s' = PROPOSAL
  /\ Controller.rendered s' = Some (Controller.ProposalView Sample.brief Sample.research)
  /\ App.currentProjectId s' = "p1".
Proof.
  apply (briefing_then_research_creates_project Sample.brief Sample.research 1%Z 2%Z 3%Z
           (App.mkState BRIEFING None None None "" [] [] "p1" false)).
  reflexivity.
Defined.

Lemma loadProject_rendered_witness :
  let s := App.mkState REFINEMENT None None None ""
             [ChatMessage.mk "m1" user "make it night time" None] [] "p0" true in
  let complete :=
    Project.mk "p1" "Museum in Riyadh" 1%Z Sample.brief (Some Sample.research) []
               (Some "data:image/png;base64,AAAA") in
  let noResearch :=
    Project.mk "p2" "Museum in Riyadh" 1%Z Sample.brief None []
               (Some "data:image/png;base64,AAAA") in
  let researched :=
    Project.mk "p3" "Museum in Riyadh" 1%Z Sample.brief (Some Sample.research) [] None in
  let bare := Project.mk "p4" "Unnamed Project" 1%Z Sample.brief None [] (Some "") in
  Controller.rendered (App.loadProject complete s)
  = Some (Controller.FinalView "data:image/png;base64,AAAA" Sample.brief Sample.research
            [ChatMessage.mk "m1" user "make it night time" None])
  /\ (App.stage (App.loadProject noResearch s) = FINAL
      /\ Controller.rendered (App.loadProject noResearch s) = None)
  /\ Controller.rendered (App.loadProject researched s)
     = Some (Controller.ProposalView Sample.brief Sample.research)
  /\ Controller.rendered (App.loadProject bare s) = Some Controller.BriefingView.
Proof.
  intros s complete noResearch researched bare. split; [|split; [|split]].
  - apply (proj1 (loadProject_rendered complete s) "data:image/png;base64,AAAA" Sample.research).
    + reflexivity.
    + discriminate.
    + reflexivity.
  - apply (proj1 (proj2 (loadProject_rendered noResearch s)) "data:image/png;base64,AAAA").
    + reflexivity.
    + discriminate.
    + reflexivity.
  - apply (proj1 (proj2 (proj2 (loadProject_rendered researched s))) Sample.research).
    + reflexivity.
    + reflexivity.
  - apply (proj2 (proj2 (proj2 (loadProject_rendered bare s)))).
    + reflexivity.
    + reflexivity.
Defined.

(** ** The generation service *)

Section Service.

Import Gemini Batch Requests.

Lemma successful_count {A} loop (a b c : ApiResult) (x y z : A) :
  List.length (successful loop [(a, x); (b, y); (c, z)]) = 3 - failures loop [a; b; c].
Proof.
  unfold failures, successful. cbn [filter map fst snd].
  destruct (fails loop a), (fails loop b), (fails loop c); reflexivity.
Qed.

Lemma successful_in {A} loop (members : list (ApiResult * A)) (x : A) :
  In x (successful loop members) ->
  exists api, In (api, x) members /\ fails loop api = false.
Proof.
  unfold successful. rewrite in_map_iff. intros [[api y] [E H]]. cbn in E. subst y.
  apply filter_In in H. destruct H as [Hin Hf]. exists api. split; [exact Hin|].
  cbn in Hf. now apply negb_true_iff in Hf.
Qed.

Lemma fails_false_image loop api : fails loop api = false -> image loop api <> "".
Proof.
  rewrite <- image_empty_fails. intros H E. rewrite E in H. discriminate.
Qed.


(** X5.  [generateArchitecturalConcepts] and [generateMultiAngleViews] never
    reject, whatever the three calls do: they return the members whose call
    neither threw nor came back without an image, in call order.  So the
    result has three members less the failures, none of them with an empty
    image, and it is the empty list when all three calls fail. *)
Theorem concepts_and_angles_never_reject
        (brief : BriefingData.t) (research : ResearchData.t) (baseImage : string)
        (a b c : ApiResult) (ua ub uc : string) :
  let concepts :=
    successful last_image
      [(a, conceptA brief a ua); (b, conceptB brief b ub); (c, conceptC brief c uc)] in
  let angles :=
    successful first_image
      [(a, image first_image a); (b, image first_image b); (c, image first_image c)] in
  generateArchitecturalConcepts brief research a b c ua ub uc = Fulfilled concepts
  /\ List.length concepts = 3 - failures last_image [a; b; c]
  /\ (forall o, In o concepts -> GeneratedOption.imageUrl o <> "")
  /\ generateMultiAngleViews baseImage brief a b c = Fulfilled angles
  /\ List.length angles = 3 - failures first_image [a; b; c]
  /\ (forall url, In url angles -> url <> "").
Proof.
  intros concepts angles. split; [|split; [|split; [|split; [|split]]]].
  - unfold generateArchitecturalConcepts, promiseA, promiseB, promiseC.
    rewrite !generateOne_fulfils. cbn [Promise_all].
    now rewrite (keep_with_image_successful a b c) by reflexivity.
  - apply successful_count.
  - intros o Ho. apply successful_in in Ho. destruct Ho as [api [Hin Hf]].
    cbn [In] in Hin.
    destruct Hin as [E | [E | [E | []]]]; inversion E; subst;
      cbn [GeneratedOption.imageUrl conceptA conceptB conceptC];
      now apply fails_false_image.
  - unfold generateMultiAngleViews. rewrite !generateAngle_fulfils. cbn [Promise_all].
    f_equal. subst angles. unfold successful. cbn [filter map fst snd].
    rewrite <- !image_empty_fails.
    destruct (image first_image a =? ""), (image first_image b =? ""),
      (image first_image c =? ""); reflexivity.
  - apply successful_count.
  - intros url Hu. apply successful_in in Hu. destruct Hu as [api [Hin Hf]].
    cbn [In] in Hin.
    destruct Hin as [E | [E | [E | []]]]; inversion E; subst; now apply fails_false_image.
Qed.

Lemma generateHybridConcepts_without_throw
      (brief : BriefingData.t) (research : ResearchData.t)
      (options : list GeneratedOption.t) (g : string)
      (a b c : ApiResult) (u1 u2 u3 : string) :
  throws a = false -> throws b = false -> throws c = false ->
  generateHybridConcepts brief research options g a b c u1 u2 u3
  = Fulfilled (successful last_image
                 [(a, hybrid1 g a u1); (b, hybrid2 g b u2); (c, hybrid3 g c u3)]).
Proof.
  intros Ta Tb Tc. unfold generateHybridConcepts, promise1, promise2, promise3.
  rewrite !generateVariant_fulfils by assumption. cbn [Promise_all].
  now rewrite (keep_with_image_successful a b c) by reflexivity.
Qed.

(** X6.  [generateHybridConcepts] is fulfilled exactly when none of its three
    calls throws, and then returns the variants whose call came back with an
    image, in call order; a call that returns without an image is dropped
    and does not reject the batch. *)
Theorem hybrid_fulfils_iff_no_call_throws
        (brief : BriefingData.t) (research : ResearchData.t)
        (options : list GeneratedOption.t) (g : string)
        (a b c : ApiResult) (u1 u2 u3 : string) :
  ((exists l, generateHybridConcepts brief research options g a b c u1 u2 u3 = Fulfilled l)
   <-> throws a = false /\ throws b = false /\ throws c = false)
  /\ (throws a = false -> throws b = false -> throws c = false ->
      generateHybridConcepts brief research options g a b c u1 u2 u3
      = Fulfilled (successful last_image
                     [(a, hybrid1 g a u1); (b, hybrid2 g b u2); (c, hybrid3 g c u3)])).
Proof.
  assert (F : throws a = false -> throws b = false -> throws c = false ->
              generateHybridConcepts brief research options g a b c u1 u2 u3
              = Fulfilled (successful last_image
                             [(a, hybrid1 g a u1); (b, hybrid2 g b u2); (c, hybrid3 g c u3)])).
  { apply generateHybridConcepts_without_throw. }
  split; [|exact F]. split.
  - intros [l H].
    destruct (throws a) eqn:Ta, (throws b) eqn:Tb, (throws c) eqn:Tc;
      try (repeat split; reflexivity); exfalso;
      revert H; unfold generateHybridConcepts, promise1, promise2, promise3;
      unfold generateVariant; unfold throws in Ta, Tb, Tc;
      destruct (image_of last_image a), (image_of last_image b), (image_of last_image c);
      cbn [Promise_all]; try discriminate.
  - intros [Ta [Tb Tc]]. eexists. now apply F.
Qed.

Lemma dataUrl_not_empty d : dataUrl d <> "".
Proof. unfold dataUrl. cbn. discriminate. Qed.

Lemma last_image_snoc ps p :
  last_image (ps ++ [p])
  = match inlineData p with
    | Some d => dataUrl d
    | None => last_image ps
    end.
Proof. unfold last_image. rewrite fold_left_app. reflexivity. Qed.

(** X7.  The scan of the concept, hybrid and refinement calls keeps the last
    part that carries inline data, the scan of the angle calls the first
    one: one is the other on the reversed parts.  Either scan yields the
    empty string exactly when no part carries inline data. *)
Theorem last_image_is_first_of_reversed (ps : list Part) :
  last_image ps = first_image (rev ps)
  /\ (last_image ps = "" <-> forall p, In p ps -> inlineData p = None)
  /\ (first_image ps = "" <-> forall p, In p ps -> inlineData p = None).
Proof.
  assert (F : forall l, first_image l = "" <-> forall p, In p l -> inlineData p = None).
  { induction l as [|p l IH]; cbn [first_image In].
    - split; [intros _ p []|reflexivity].
    - destruct (inlineData p) as [d|] eqn:E.
      + split.
        * intros H. now apply dataUrl_not_empty in H.
        * intros H. specialize (H p (or_introl eq_refl)). congruence.
      + rewrite IH. split.
        * intros H q [<-|Hq]; [exact E|now apply H].
        * intros H q Hq. apply H. now right. }
  assert (L : last_image ps = first_image (rev ps)).
  { induction ps as [|p ps IH] using rev_ind; [reflexivity|].
    rewrite last_image_snoc, rev_app_distr. cbn [rev app first_image].
    now rewrite IH. }
  split; [exact L|]. split; [|apply F].
  rewrite L, F. split; intros H p Hp; apply H.
  - now apply (proj1 (in_rev ps p)).
  - now apply (proj2 (in_rev ps p)).
Qed.

End Service.

(** ** Data URLs and the image parts of a request *)

Section DataUrls.

Import Gemini Requests.

Lemma append_empty_r s : s ++ "" = s.
Proof. induction s as [|c s IH]; [reflexivity|]. cbn. now rewrite IH. Qed.

Lemma strip_prefix_app p s : strip_prefix p (p ++ s) = Some s.
Proof.
  induction p as [|a p IH]; [now destruct s|].
  cbn. now rewrite Ascii.eqb_refl.
Qed.

Lemma no_line_terminator_app s t :
  no_line_terminator (s ++ t) = no_line_terminator s && no_line_terminator t.
Proof.
  induction s as [|c s IH]; [reflexivity|].
  cbn. now rewrite IH, andb_assoc.
Qed.

Lemma strip_marker_not_semicolon c r :
  (N_of_ascii c =? 59)%N = false -> strip_prefix ";base64," (String c r) = None.
Proof.
  intros H. cbn [strip_prefix]. destruct (Ascii.eqb ";" c) eqn:E; [|reflexivity].
  apply Ascii.eqb_eq in E. subst c. discriminate H.
Qed.

Lemma last_marker_none s : no_semicolon s = true -> last_marker s = None.
Proof.
  induction s as [|c s IH]; [reflexivity|].
  cbn [no_semicolon last_marker]. intros H. apply andb_true_iff in H. destruct H as [Hc Hs].
  rewrite (IH Hs). apply negb_true_iff in Hc.
  now rewrite (strip_marker_not_semicolon c s Hc).
Qed.

Lemma last_marker_cons c r :
  last_marker (String c r)
  = match last_marker r with
    | Some (x, y) => Some (String c x, y)
    | None =>
        match strip_prefix ";base64," (String c r) with
        | Some (String a b) => Some (EmptyString, String a b)
        | _ => None
        end
    end.
Proof. reflexivity. Qed.

Lemma last_marker_app m s x y :
  last_marker s = Some (x, y) -> last_marker (m ++ s) = Some (m ++ x, y).
Proof.
  intros H. induction m as [|c m IH]; [exact H|].
  cbn [append last_marker]. now rewrite IH.
Qed.

Lemma last_marker_found r : found (last_marker r) = marker_then_data r.
Proof.
  induction r as [|c r IH]; [reflexivity|].
  cbn [last_marker marker_then_data]. rewrite <- IH.
  destruct (last_marker r) as [[x y]|].
  - cbn [found]. now destruct (strip_prefix ";base64," (String c r)) as [[|a b]|].
  - now destruct (strip_prefix ";base64," (String c r)) as [[|a b]|].
Qed.

Lemma is_data_url_groups s : is_data_url s = found (data_url_groups s).
Proof.
  unfold is_data_url, data_url_groups.
  destruct (strip_prefix "data:" s) as [[|c r]|]; [reflexivity| |reflexivity].
  destruct (no_line_terminator (String c r)); [|reflexivity].
  cbn [andb last_marker]. rewrite <- last_marker_found.
  destruct (last_marker r) as [[x y]|]; [reflexivity|].
  now destruct (strip_prefix ";base64," (String c r)) as [[|a b]|].
Qed.

(** X8.  The URL the application assembles from an inline-data part of a
    response is read back, by the pattern every later request applies to it,
    into the same MIME type and data, provided both are non-empty and free
    of line terminators and the data holds no semicolon (as base64 does
    not). *)
Theorem dataUrl_round_trip (d : InlineData) :
  mimeType d <> "" -> data d <> "" ->
  no_line_terminator (mimeType d) = true -> no_line_terminator (data d) = true ->
  no_semicolon (data d) = true ->
  data_url_groups (dataUrl d) = Some (mimeType d, data d)
  /\ is_data_url (dataUrl d) = true.
Proof.
  intros Hm Hd Lm Ld Sd.
  assert (G : data_url_groups (dataUrl d) = Some (mimeType d, data d)).
  { unfold data_url_groups, dataUrl. rewrite strip_prefix_app.
    rewrite !no_line_terminator_app, Lm, Ld.
    change (no_line_terminator ";base64,") with true. cbn [andb].
    assert (M : last_marker (";base64," ++ data d) = Some ("", data d)).
    { change (";base64," ++ data d) with (String ";" ("base64," ++ data d)).
      rewrite last_marker_cons.
      rewrite (last_marker_none ("base64," ++ data d)) by exact Sd.
      change (String ";" ("base64," ++ data d)) with (";base64," ++ data d).
      rewrite strip_prefix_app. destruct (data d); [contradiction|reflexivity]. }
    rewrite (last_marker_app (mimeType d) _ _ _ M), append_empty_r.
    destruct (mimeType d) as [|a x] eqn:E; [contradiction|reflexivity]. }
  split; [exact G|]. now rewrite is_data_url_groups, G.
Qed.

Lemma inlineParts_length urls : List.length (inlineParts urls) <= List.length urls.
Proof.
  induction urls as [|u urls IH]; [reflexivity|].
  cbn [inlineParts flat_map]. fold (inlineParts urls).
  rewrite length_app. destruct (data_url_groups u); cbn [List.length]; lia.
Qed.

(** X9.  A refinement whose current image is not a data URL is rejected with
    "Invalid image data format" whatever the service would answer.  When it
    is one, the request carries the current image first and at most two
    inspiration images after it, and the refinement is rejected exactly when
    the service call or the scan of its response throws. *)
Theorem refine_checks_current_image
        (currentImage userInstruction : string) (brief : BriefingData.t) (api : ApiResult) :
  (data_url_groups currentImage = None ->
   refine_imageParts currentImage brief = Throw "Invalid image data format"
   /\ refineArchitecturalImage currentImage userInstruction brief api
      = Rejected "Invalid image data format")
  /\ (forall g, data_url_groups currentImage = Some g ->
      (exists rest, refine_imageParts currentImage brief = Normal (g :: rest)
                    /\ List.length rest <= 2)
      /\ refineArchitecturalImage currentImage userInstruction brief api
         = match image_of last_image api with
           | Normal imageUrl => Fulfilled imageUrl
           | Throw e => Rejected e
           end).
Proof.
  unfold refine_imageParts, refineArchitecturalImage. rewrite is_data_url_groups. split.
  - intros ->. split; reflexivity.
  - intros g ->. cbn [found]. split; [|reflexivity].
    eexists. split; [reflexivity|].
    etransitivity; [apply inlineParts_length|].
    rewrite length_firstn. lia.
Qed.

(** X10.  The image parts of a concept request and of a hybrid request.
    With a massing image that is a data URL, that image is the first part of
    every request; the concept requests then carry every inspiration image
    that is a data URL, whatever the mood-match intensity, and the hybrid
    requests the images of the options.  Without a massing image the
    INSPIRED request still carries the inspiration images, while the LITERAL
    and WILDCARD requests carry them only when the intensity is above 50. *)
Theorem request_image_parts (brief : BriefingData.t) :
  (forall m g,
      BriefingData.massingImage brief = Some m -> data_url_groups m = Some g ->
      (forall type,
          generateOne_imageParts type brief
          = g :: inlineParts (BriefingData.inspirationImages brief))
      /\ (forall options,
          generateVariant_imageParts brief options
          = g :: inlineParts (map GeneratedOption.imageUrl options)))
  /\ (truthy_opt (BriefingData.massingImage brief) = false ->
      generateOne_imageParts INSPIRED brief = inlineParts (BriefingData.inspirationImages brief)
      /\ (forall type n,
          type <> INSPIRED -> BriefingData.moodMatchIntensity brief = Some n ->
          generateOne_imageParts type brief
          = if (50 <? n)%Z then inlineParts (BriefingData.inspirationImages brief) else [])
      /\ (forall type,
          type <> INSPIRED -> BriefingData.moodMatchIntensity brief = None ->
          generateOne_imageParts type brief = [])).
Proof.
  split.
  - intros m g Hm Hg.
    assert (T : truthy m = true).
    { destruct m; [|reflexivity]. discriminate Hg. }
    assert (P : massingPart brief = [g]).
    { unfold massingPart. rewrite Hm, T. unfold inlineParts. cbn [flat_map].
      now rewrite Hg. }
    split.
    + intros type. unfold generateOne_imageParts. rewrite P.
      assert (S : shouldIncludeInspiration type brief = true).
      { unfold shouldIncludeInspiration, truthy_opt. rewrite Hm, T. now destruct type. }
      rewrite S. now destruct (BriefingData.inspirationImages brief).
    + intros options. unfold generateVariant_imageParts. now rewrite P.
  - intros Hm.
    assert (P : massingPart brief = []).
    { unfold massingPart. unfold truthy_opt in Hm.
      destruct (BriefingData.massingImage brief) as [m|]; [|reflexivity]. now rewrite Hm. }
    unfold generateOne_imageParts, shouldIncludeInspiration. rewrite P, Hm. cbn [app orb].
    split; [|split].
    + now destruct (BriefingData.inspirationImages brief).
    + intros type n Ht ->.
      assert (E : (negb (n =? 0) && (50 <? n))%Z = (50 <? n)%Z).
      { destruct (50 <? n)%Z eqn:L; [|apply andb_false_r].
        apply Z.ltb_lt in L. rewrite andb_true_r. apply negb_true_iff, Z.eqb_neq. lia. }
      rewrite E.
      destruct type; try contradiction;
        destruct (BriefingData.inspirationImages brief); destruct (50 <? n)%Z; reflexivity.
    + intros type Ht ->.
      destruct type; try contradiction;
        now destruct (BriefingData.inspirationImages brief).
Qed.

End DataUrls.

Lemma dataUrl_round_trip_witness :
  Requests.data_url_groups
    (Gemini.dataUrl {| Gemini.mimeType := "image/png"; Gemini.data := "AAAA" |})
  = Some ("image/png", "AAAA")
  /\ Gemini.is_data_url
       (Gemini.dataUrl {| Gemini.mimeType := "image/png"; Gemini.data := "AAAA" |}) = true.
Proof.
  apply (dataUrl_round_trip {| Gemini.mimeType := "image/png"; Gemini.data := "AAAA" |}).
  - discriminate.
  - discriminate.
  - reflexivity.
  - reflexivity.
  - reflexivity.
Defined.

Lemma refine_checks_current_image_witness :
  (Requests.refine_imageParts "https://example.org/a.png" Sample.brief
   = Throw "Invalid image data format"
   /\ Gemini.refineArchitecturalImage "https://example.org/a.png" "make it night time"
        Sample.brief (Batch.png "NNNN")
      = Rejected "Invalid image data format")
  /\ ((exists rest,
          Requests.refine_imageParts "data:image/png;base64,AAAA" Sample.brief
          = Normal (("image/png", "AAAA") :: rest)
          /\ List.length rest <= 2)
      /\ Gemini.refineArchitecturalImage "data:image/png;base64,AAAA" "make it night time"
           Sample.brief (Batch.png "NNNN")
         = match Gemini.image_of Gemini.last_image (Batch.png "NNNN") with
           | Normal imageUrl => Fulfilled imageUrl
           | Throw e => Rejected e
           end).
Proof.
  split.
  - apply (proj1 (refine_checks_current_image "https://example.org/a.png"
                    "make it night time" Sample.brief (Batch.png "NNNN"))).
    reflexivity.
  - apply (proj2 (refine_checks_current_image "data:image/png;base64,AAAA"
                    "make it night time" Sample.brief (Batch.png "NNNN"))
             ("image/png", "AAAA")).
    reflexivity.
Defined.

Lemma request_image_parts_witness :
  let inspired :=
    BriefingData.mk "Museum" "Riyadh" "" "a quiet courtyard"
                    ["data:image/jpeg;base64,IIII"; "not a data url"]
                    None None None None (Some 50%Z) in
  let massed :=
    BriefingData.mk "Museum" "Riyadh" "" "a quiet courtyard"
                    ["data:image/jpeg;base64,IIII"; "not a data url"]
                    (Some "data:image/png;base64,MMMM") None None None (Some 10%Z) in
  ((forall type,
       Requests.generateOne_imageParts type massed
       = ("image/png", "MMMM") :: Requests.inlineParts (BriefingData.inspirationImages massed))
   /\ (forall options,
       Requests.generateVariant_imageParts massed options
       = ("image/png", "MMMM")
         :: Requests.inlineParts (map GeneratedOption.imageUrl options)))
  /\ Requests.generateOne_imageParts INSPIRED inspired = [("image/jpeg", "IIII")]
  /\ Requests.generateOne_imageParts LITERAL inspired = [].
Proof.
  intros inspired massed. split; [|split].
  - apply (proj1 (request_image_parts massed) "data:image/png;base64,MMMM").
    + reflexivity.
    + reflexivity.
  - apply (proj1 (proj2 (request_image_parts inspired) eq_refl)).
  - apply (proj1 (proj2 (proj2 (request_image_parts inspired) eq_refl)) LITERAL 50%Z).
    + discriminate.
    + reflexivity.
Defined.

(** ** The carousel and the synthesis lab *)

Section Proposals.

Import Carousel.

Lemma with_index_same s : with_index s (currentIndex s) = s.
Proof. now destruct s. Qed.

Lemma next_index (i n : Z) :
  (0 <= i < n)%Z -> Z.rem (i + 1) n = if (i + 1 =? n)%Z then 0%Z else (i + 1)%Z.
Proof.
  intros H. destruct (i + 1 =? n)%Z eqn:E.
  - apply Z.eqb_eq in E. rewrite E. apply Z.rem_same. lia.
  - apply Z.eqb_neq in E. apply Z.rem_small. lia.
Qed.

Lemma prev_index (i n : Z) :
  (0 <= i < n)%Z -> Z.rem (i - 1 + n) n = if (i =? 0)%Z then (n - 1)%Z else (i - 1)%Z.
Proof.
  intros H. destruct (i =? 0)%Z eqn:E.
  - apply Z.eqb_eq in E. subst i. replace (0 - 1 + n)%Z with (n - 1)%Z by lia.
    apply Z.rem_small. lia.
  - apply Z.eqb_neq in E. rewrite Z.rem_mod_nonneg by lia.
    replace (i - 1 + n)%Z with (i - 1 + 1 * n)%Z by lia.
    rewrite Z_mod_plus_full. apply Z.mod_small. lia.
Qed.

(** X11.  In a carousel whose index is within the options, the next and the
    previous buttons keep the index within the options, wrapping around at
    both ends, and each undoes the other. *)
Theorem carousel_wraps_around (s : State) :
  (0 <= currentIndex s < count s)%Z ->
  (0 <= currentIndex (handleNext s) < count s)%Z
  /\ (0 <= currentIndex (handlePrev s) < count s)%Z
  /\ currentIndex (handleNext s)
     = (if (currentIndex s + 1 =? count s)%Z then 0 else currentIndex s + 1)%Z
  /\ currentIndex (handlePrev s)
     = (if (currentIndex s =? 0)%Z then count s - 1 else currentIndex s - 1)%Z
  /\ handlePrev (handleNext s) = s
  /\ handleNext (handlePrev s) = s
  /\ currentOption (handleNext s) <> None
  /\ currentOption (handlePrev s) <> None.
Proof.
  intros H.
  assert (N : currentIndex (handleNext s)
              = (if (currentIndex s + 1 =? count s)%Z then 0 else currentIndex s + 1)%Z).
  { unfold handleNext. cbn [with_index currentIndex]. now apply next_index. }
  assert (P : currentIndex (handlePrev s)
              = (if (currentIndex s =? 0)%Z then count s - 1 else currentIndex s - 1)%Z).
  { unfold handlePrev. cbn [with_index currentIndex]. now apply prev_index. }
  assert (RN : (0 <= currentIndex (handleNext s) < count s)%Z).
  { rewrite N. destruct (currentIndex s + 1 =? count s)%Z eqn:E; [lia|].
    apply Z.eqb_neq in E. lia. }
  assert (RP : (0 <= currentIndex (handlePrev s) < count s)%Z).
  { rewrite P. destruct (currentIndex s =? 0)%Z eqn:E; lia. }
  assert (C : forall t, options t = options s -> (0 <= currentIndex t < count s)%Z ->
                        currentOption t <> None).
  { intros t Ho Ht. unfold currentOption.
    destruct (currentIndex t <? 0)%Z eqn:L; [apply Z.ltb_lt in L; lia|].
    rewrite Ho. apply nth_error_Some. unfold count in Ht. lia. }
  repeat split; try lia; try exact N; try exact P.
  - transitivity (with_index s (Z.rem (currentIndex (handleNext s) - 1 + count s) (count s)));
      [reflexivity|].
    rewrite prev_index by exact RN. rewrite N.
    destruct (currentIndex s + 1 =? count s)%Z eqn:E.
    + apply Z.eqb_eq in E. cbn [Z.eqb].
      replace (count s - 1)%Z with (currentIndex s) by lia. apply with_index_same.
    + apply Z.eqb_neq in E.
      destruct (currentIndex s + 1 =? 0)%Z eqn:E0; [apply Z.eqb_eq in E0; lia|].
      replace (currentIndex s + 1 - 1)%Z with (currentIndex s) by lia. apply with_index_same.
  - transitivity (with_index s (Z.rem (currentIndex (handlePrev s) + 1) (count s)));
      [reflexivity|].
    rewrite next_index by exact RP. rewrite P.
    destruct (currentIndex s =? 0)%Z eqn:E.
    + apply Z.eqb_eq in E.
      replace (count s - 1 + 1 =? count s)%Z with true by (symmetry; apply Z.eqb_eq; lia).
      rewrite <- E. apply with_index_same.
    + apply Z.eqb_neq in E.
      destruct (currentIndex s - 1 + 1 =? count s)%Z eqn:E1; [apply Z.eqb_eq in E1; lia|].
      replace (currentIndex s - 1 + 1)%Z with (currentIndex s) by lia. apply with_index_same.
  - apply C; [reflexivity|exact RN].
  - apply C; [reflexivity|exact RP].
Qed.

End Proposals.

Lemma carousel_wraps_around_witness :
  let s := Carousel.mkState [Sample.option1; Sample.option1; Sample.option1]
                            false 2%Z false "" false in
  (0 <= Carousel.currentIndex (Carousel.handleNext s) < Carousel.count s)%Z
  /\ (0 <= Carousel.currentIndex (Carousel.handlePrev s) < Carousel.count s)%Z
  /\ Carousel.currentIndex (Carousel.handleNext s)
     = (if (Carousel.currentIndex s + 1 =? Carousel.count s)%Z
        then 0 else Carousel.currentIndex s + 1)%Z
  /\ Carousel.currentIndex (Carousel.handlePrev s)
     = (if (Carousel.currentIndex s =? 0)%Z
        then Carousel.count s - 1 else Carousel.currentIndex s - 1)%Z
  /\ Carousel.handlePrev (Carousel.handleNext s) = s
  /\ Carousel.handleNext (Carousel.handlePrev s) = s
  /\ Carousel.currentOption (Carousel.handleNext s) <> None
  /\ Carousel.currentOption (Carousel.handlePrev s) <> None.
Proof.
  intros s. apply (carousel_wraps_around s). cbn. lia.
Defined.

Section Synthesis.

Import Carousel.

Lemma nth_error_middle {A} (l : list A) (x : A) (t : list A) :
  nth_error (l ++ x :: t) (List.length l) = Some x.
Proof. induction l as [|y l IH]; [reflexivity|exact IH]. Qed.

Lemma render_after_synthesis (s : State) (added : list GeneratedOption.t) :
  loading s = false -> options s <> [] ->
  render (mkState (options s ++ added) (loading s) (Z.of_nat (List.length (options s)))
                  (showSynthesisUI s) (synthesisPrompt s) false)
  = match added with
    | h :: _ => Normal (Showing h)
    | [] => Throw "TypeError"
    end.
Proof.
  intros L O. unfold render, currentOption. cbn [loading options isSynthesizing currentIndex].
  rewrite L.
  assert (N : (List.length (options s ++ added) =? 0)%nat = false).
  { apply Nat.eqb_neq. rewrite length_app. destruct (options s); [contradiction|cbn; lia]. }
  rewrite N.
  assert (Z0 : (Z.of_nat (List.length (options s)) <? 0)%Z = false) by (apply Z.ltb_ge; lia).
  rewrite Z0, Nat2Z.id. destruct added as [|h t].
  - rewrite app_nil_r.
    replace (nth_error (options s) (List.length (options s))) with (@None GeneratedOption.t);
      [reflexivity|].
    symmetry. apply nth_error_None. lia.
  - now rewrite nth_error_middle.
Qed.

(** X12.  When a synthesis settles on a carousel that shows options: a
    fulfilled batch with at least one variant appends the variants and shows
    the first of them; a rejected batch leaves options and index as they
    were; a batch fulfilled with no variant, as when all three calls return
    without an image, leaves the options as they were but sets the index
    one past the last option, so that the next render reads a property of
    [undefined] and throws.  In every case the lab screen is left, and the
    options already shown are kept. *)
Theorem synthesis_outcomes (s : State) (hybridOptions : settled (list GeneratedOption.t)) :
  let s' := handleSynthesis_resume (options s) hybridOptions s in
  loading s = false -> options s <> [] ->
  isSynthesizing s' = false
  /\ (exists added, options s' = (options s ++ added)%list)
  /\ (forall h t, hybridOptions = Fulfilled (h :: t) ->
                  options s' = (options s ++ h :: t)%list /\ render s' = Normal (Showing h))
  /\ (forall e, hybridOptions = Rejected e ->
                options s' = options s /\ currentIndex s' = currentIndex s)
  /\ (hybridOptions = Fulfilled [] ->
      options s' = options s
      /\ currentIndex s' = count s
      /\ currentOption s' = None
      /\ render s' = Throw "TypeError")
  /\ (forall brief research g a b c u1 u2 u3,
         Batch.throws a = false -> Batch.throws b = false -> Batch.throws c = false ->
         Batch.failures Gemini.last_image [a; b; c] = 3 ->
         hybridOptions
         = Gemini.generateHybridConcepts brief research (options s) g a b c u1 u2 u3 ->
         render s' = Throw "TypeError").
Proof.
  intros s' L O.
  assert (E : hybridOptions = Fulfilled [] ->
              options s' = options s /\ currentIndex s' = count s
              /\ currentOption s' = None /\ render s' = Throw "TypeError").
  { intros ->. subst s'. unfold handleSynthesis_resume. cbn [await].
    split; [apply app_nil_r|]. split; [reflexivity|]. split.
    - unfold currentOption. cbn [currentIndex options].
      destruct (Z.of_nat (List.length (options s)) <? 0)%Z; [reflexivity|].
      rewrite Nat2Z.id, app_nil_r. apply nth_error_None. lia.
    - now rewrite (render_after_synthesis s [] L O). }
  split; [|split; [|split; [|split; [|split]]]].
  - subst s'. unfold handleSynthesis_resume. now destruct hybridOptions.
  - subst s'. unfold handleSynthesis_resume. destruct hybridOptions as [l|e]; cbn [await options].
    + now exists l.
    + exists []. now rewrite app_nil_r.
  - intros h t ->. subst s'. unfold handleSynthesis_resume. cbn [await].
    split; [reflexivity|]. now rewrite (render_after_synthesis s (h :: t) L O).
  - intros e ->. split; reflexivity.
  - exact E.
  - intros brief research g a b c u1 u2 u3 Ta Tb Tc F H.
    apply E. rewrite H.
    rewrite (generateHybridConcepts_without_throw brief research (options s) g a b c u1 u2 u3
               Ta Tb Tc).
    f_equal. revert F. unfold Batch.failures, Batch.successful. cbn [filter map fst snd].
    destruct (Batch.fails Gemini.last_image a), (Batch.fails Gemini.last_image b),
      (Batch.fails Gemini.last_image c); cbn; intros F; try discriminate F; reflexivity.
Qed.

End Synthesis.

Lemma synthesis_outcomes_witness :
  let s := Carousel.mkState [Sample.option1] false 0%Z false "blend them" true in
  let none :=
    Gemini.generateHybridConcepts Sample.brief Sample.research [Sample.option1] "blend them"
      Batch.textOnly Batch.textOnly Batch.textOnly "u1" "u2" "u3" in
  none = Fulfilled []
  /\ Carousel.render (Carousel.handleSynthesis_resume [Sample.option1] none s)
     = Throw "TypeError".
Proof.
  intros s none. split; [reflexivity|].
  apply (proj2 (proj2 (proj2 (proj2 (proj2 (synthesis_outcomes s none eq_refl
                                               ltac:(discriminate))))))
           Sample.brief Sample.research "blend them"
           Batch.textOnly Batch.textOnly Batch.textOnly "u1" "u2" "u3");
    reflexivity.
Defined.

(** ** More on the refinement session *)

Section Sessions.

Import RefinementStep Session.

Variable selectedOption : GeneratedOption.t.
Variable briefData : BriefingData.t.
Variable toLocaleTimeString : Z -> string.

Local Abbreviation initial := (RefinementStep.initial selectedOption).
Local Abbreviation step := (RefinementStep.step briefData toLocaleTimeString).
Local Abbreviation run := (RefinementStep.run briefData toLocaleTimeString).
Local Abbreviation offered := (Session.offered briefData toLocaleTimeString).

(** What one event does to the ledger, the current image and the archive
    calls: nothing, or one version appended that becomes current and is
    archived under its id, or, for a restore, the current image replaced. *)
Lemma step_effect (s : State) (e : Event) :
  (historyVersions (step s e) = historyVersions s
   /\ archived (step s e) = archived s
   /\ (currentImage (step s e) = currentImage s
       \/ exists v u, e = Restore v u /\ currentImage (step s e) = DesignVersion.imageUrl v))
  \/ (exists v img,
         historyVersions (step s e) = (historyVersions s ++ [v])%list
         /\ archived (step s e) = (archived s ++ [img])%list
         /\ idAndUrl img = archivedAs v
         /\ currentImage (step s e) = DesignVersion.imageUrl v).
Proof.
  destruct e as [o u | api u1 u2 now | v u | value]; cbn [RefinementStep.step].
  - left. unfold handleSend. destruct (rejected o s); repeat split; now left.
  - unfold handleSend_resume. destruct (inflight s) as [|r rest].
    + left. repeat split. now left.
    + destruct (refined briefData r api) as [url|].
      * right. eexists. eexists. repeat split.
      * left. repeat split. now left.
  - left. repeat split. right. now exists v, u.
  - left. repeat split. now left.
Qed.

Lemma chat_grows (s : State) (e : Event) :
  exists turns, chatHistory (step s e) = (chatHistory s ++ turns)%list.
Proof.
  destruct e as [o u | api u1 u2 now | v u | value]; cbn [RefinementStep.step].
  - unfold handleSend. destruct (rejected o s).
    + exists []. now rewrite app_nil_r.
    + now eexists.
  - unfold handleSend_resume. destruct (inflight s) as [|r rest].
    + exists []. now rewrite app_nil_r.
    + destruct (refined briefData r api); now eexists.
  - now eexists.
  - exists []. now rewrite app_nil_r.
Qed.

(** X13.  As long as restores are of versions the ledger holds, the current
    image is at every moment the image of a version of the ledger: what
    Finalize hands over is one of the recorded versions. *)
Theorem current_image_is_a_version (es : list Event) (now0 : Z) :
  offered es (initial now0) ->
  exists v, In v (historyVersions (run es (initial now0)))
            /\ DesignVersion.imageUrl v = currentImage (run es (initial now0)).
Proof.
  assert (G : forall es s,
             offered es s ->
             (exists v, In v (historyVersions s) /\ DesignVersion.imageUrl v = currentImage s) ->
             exists v, In v (historyVersions (run es s))
                       /\ DesignVersion.imageUrl v = currentImage (run es s)).
  { clear es. induction es as [|e es IH]; intros s Ho Hs; [exact Hs|].
    cbn [Session.offered] in Ho. destruct Ho as [He Ho].
    cbn [RefinementStep.run fold_left]. apply IH; [exact Ho|].
    destruct Hs as [v0 [Hin Hv]].
    destruct (step_effect s e) as [[Hh [_ [Hc | [v [u [-> Hc]]]]]] | [v [img [Hh [_ [_ Hc]]]]]].
    - exists v0. rewrite Hh, Hc. now split.
    - exists v. rewrite Hh, Hc. now split.
    - exists v. rewrite Hh, Hc. split; [|reflexivity]. apply in_or_app. right. now left. }
  intros Ho. apply G; [exact Ho|].
  eexists. split; [left; reflexivity|reflexivity].
Qed.

(** X14.  The archive calls of a session mirror its ledger: after any
    sequence of events, the images handed to [onArchive] are, in order, the
    versions of the ledger after the seeded one, each under the id and with
    the url of its version.  The seeded version is not archived by this
    step, and a failed refinement or a restore archives nothing. *)
Theorem archive_mirrors_ledger (es : list Event) (now0 : Z) :
  map idAndUrl (archived (run es (initial now0)))
  = map archivedAs (tl (historyVersions (run es (initial now0)))).
Proof.
  assert (G : forall es s,
             historyVersions s <> [] ->
             map idAndUrl (archived s) = map archivedAs (tl (historyVersions s)) ->
             historyVersions (run es s) <> []
             /\ map idAndUrl (archived (run es s))
                = map archivedAs (tl (historyVersions (run es s)))).
  { clear es. induction es as [|e es IH]; intros s Hne Hs; [now split|].
    cbn [RefinementStep.run fold_left].
    destruct (step_effect s e) as [[Hh [Ha _]] | [v [img [Hh [Ha [Hi _]]]]]].
    - apply IH; rewrite Hh; [exact Hne|]. now rewrite Ha.
    - apply IH; rewrite Hh.
      + destruct (historyVersions s); discriminate.
      + rewrite Ha, map_app, Hs. cbn [map]. rewrite Hi.
        destruct (historyVersions s) as [|v0 l]; [contradiction|].
        cbn [tl app]. now rewrite map_app. }
  apply G; [discriminate|reflexivity].
Qed.

(** X15.  No event removes or reorders anything: after any sequence of
    events the ledger and the conversation log of before are prefixes of the
    ledger and the log of after, also across restores and failed
    refinements. *)
Theorem ledger_and_log_are_append_only (es : list Event) (s : State) :
  exists versions turns,
    historyVersions (run es s) = (historyVersions s ++ versions)%list
    /\ chatHistory (run es s) = (chatHistory s ++ turns)%list.
Proof.
  revert s. induction es as [|e es IH]; intros s.
  - exists [], []. now rewrite !app_nil_r.
  - cbn [RefinementStep.run fold_left].
    destruct (IH (step s e)) as [vs [ts [Hv Ht]]].
    destruct (chat_grows s e) as [t0 Hc].
    unfold RefinementStep.run in Hv, Ht.
    destruct (step_effect s e) as [[Hh _] | [v [img [Hh _]]]].
    + exists vs, (t0 ++ ts)%list. rewrite Hv, Ht, Hh, Hc, <- app_assoc. now split.
    + exists (v :: vs), (t0 ++ ts)%list. rewrite Hv, Ht, Hh, Hc, <- !app_assoc. now split.
Qed.

End Sessions.

Lemma current_image_is_a_version_witness :
  let es :=
    [RefinementStep.Send (Some "make it night time") "u0";
     RefinementStep.Settle (Batch.png "NNNN") "u1" "u2" 7%Z;
     RefinementStep.Restore
       (RefinementStep.DesignVersion.mk "v0" "data:image/png;base64,AAAA" 0%Z "Original Concept")
       "u3"] in
  exists v,
    In v (RefinementStep.historyVersions
            (RefinementStep.run Sample.brief Sample.timeOfDay es
               (RefinementStep.initial Sample.option1 0%Z)))
    /\ RefinementStep.DesignVersion.imageUrl v
       = RefinementStep.currentImage
           (RefinementStep.run Sample.brief Sample.timeOfDay es
              (RefinementStep.initial Sample.option1 0%Z)).
Proof.
  intros es.
  apply (current_image_is_a_version Sample.option1 Sample.brief Sample.timeOfDay es 0%Z).
  cbn. repeat split. left. reflexivity.
Defined.

Section Guard.

Import RefinementStep Session.

Lemma all_white_trimStart s : all_white_space (trimStart s) = all_white_space s.
Proof.
  induction s as [|c s IH]; [reflexivity|].
  cbn [trimStart all_white_space]. destruct (is_white_space c) eqn:E; [exact IH|].
  cbn [all_white_space]. now rewrite E.
Qed.

Lemma all_white_rev_append s acc :
  all_white_space (JS.rev_append s acc) = all_white_space s && all_white_space acc.
Proof.
  revert acc. induction s as [|c s IH]; intros acc; [reflexivity|].
  cbn [JS.rev_append all_white_space]. rewrite IH. cbn [all_white_space].
  destruct (is_white_space c), (all_white_space s), (all_white_space acc); reflexivity.
Qed.

Lemma all_white_reverse s : all_white_space (reverse s) = all_white_space s.
Proof. unfold reverse. rewrite all_white_rev_append. apply andb_true_r. Qed.

Lemma all_white_trim s : all_white_space (trim s) = all_white_space s.
Proof.
  unfold trim, trimEnd.
  now rewrite all_white_reverse, all_white_trimStart, all_white_reverse, all_white_trimStart.
Qed.

Lemma trimStart_all_white s : all_white_space s = true -> trimStart s = "".
Proof.
  induction s as [|c s IH]; [reflexivity|].
  cbn [all_white_space trimStart]. intros H. apply andb_true_iff in H. destruct H as [Hc Hs].
  rewrite Hc. now apply IH.
Qed.

Lemma truthy_trim s : truthy (trim s) = negb (all_white_space s).
Proof.
  destruct (all_white_space s) eqn:E.
  - unfold trim. now rewrite (trimStart_all_white s E).
  - rewrite <- all_white_trim in E. now destruct (trim s).
Qed.

(** X16.  The guard of [handleSend].  A submission is dropped exactly when
    its text (the override if there is a non-empty one, else the input box)
    consists of white space only or a request is outstanding; a dropped
    submission changes nothing.  The redesign button therefore submits its
    fixed prompt whatever the input box holds, unless a request is
    outstanding, and in doing so empties the input box. *)
Theorem handleSend_guard (o : option string) (uuid : string) (s : State) :
  rejected o s = all_white_space (promptText o s) || isProcessing s
  /\ (rejected o s = true -> handleSend o uuid s = s)
  /\ rejected (Some redesignPrompt) s = isProcessing s
  /\ (isProcessing s = false ->
      inflight (handleCompleteRedesign uuid s)
      = (inflight s ++ [mkRequest (currentImage s) redesignPrompt])%list
      /\ chatHistory (handleCompleteRedesign uuid s)
         = (chatHistory s ++ [userMsg uuid redesignPrompt])%list
      /\ input (handleCompleteRedesign uuid s) = "").
Proof.
  assert (R : forall o', rejected o' s = all_white_space (promptText o' s) || isProcessing s).
  { intros o'. unfold rejected. now rewrite truthy_trim, negb_involutive. }
  assert (D : rejected (Some redesignPrompt) s = isProcessing s).
  { rewrite R. reflexivity. }
  split; [apply R|]. split; [|split; [exact D|]].
  - intros H. unfold handleSend. now rewrite H.
  - intros P. unfold handleCompleteRedesign, handleSend. rewrite D, P.
    repeat split.
Qed.

End Guard.

Lemma handleSend_guard_witness :
  let s := RefinementStep.mkState "data:image/png;base64,AAAA" [] [] "   " false [] [] in
  RefinementStep.handleSend None "u0" s = s
  /\ (RefinementStep.inflight (Session.handleCompleteRedesign "u0" s)
      = [RefinementStep.mkRequest "data:image/png;base64,AAAA" Session.redesignPrompt]
      /\ RefinementStep.chatHistory (Session.handleCompleteRedesign "u0" s)
         = [RefinementStep.userMsg "u0" Session.redesignPrompt]
      /\ RefinementStep.input (Session.handleCompleteRedesign "u0" s) = "").
Proof.
  intros s. split.
  - apply (proj1 (proj2 (handleSend_guard None "u0" s))). reflexivity.
  - apply (proj2 (proj2 (proj2 (handleSend_guard None "u0" s)))). reflexivity.
Defined.

(** ** Edits of the inspiration images that do not overlap *)

Section Edits.

Import BriefingStep BriefingEdits.

Lemma remove_nth_length_exact {A} (i : nat) (l : list A) :
  List.length (remove_nth i l)
  = if (i <? List.length l)%nat then List.length l - 1 else List.length l.
Proof.
  revert i. induction l as [|x l IH]; intros i; [now destruct i|].
  destruct i as [|j]; cbn [remove_nth List.length]; [cbn; lia|].
  rewrite IH. change (S j <? S (List.length l))%nat with (j <? List.length l)%nat.
  destruct (j <? List.length l)%nat eqn:E; [|reflexivity].
  apply Nat.ltb_lt in E. lia.
Qed.

Lemma remove_nth_split {A} (i : nat) (l : list A) :
  remove_nth i l = (firstn i l ++ skipn (S i) l)%list.
Proof.
  revert i. induction l as [|x l IH]; intros i; [now destruct i|].
  destruct i as [|j]; [reflexivity|].
  cbn [remove_nth firstn skipn app]. now rewrite IH.
Qed.

(** X17.  When every addition's reads end before the next edit, the list of
    inspiration images never exceeds ten: an addition of k files to n images
    appends the first min(k, 10 - n) of them, a removal at an index within
    the list drops exactly that image and keeps the order of the others, and
    a removal at any other index changes nothing. *)
Theorem sequential_edits_stay_within_ten (es : list Edit) (s : State) :
  List.length (inspirationImages s) <= 10 ->
  List.length (inspirationImages (edits es s)) <= 10
  /\ (forall files,
         inspirationImages (addFiles files s)
         = (inspirationImages s
            ++ firstn (10 - List.length (inspirationImages s)) files)%list)
  /\ (forall index,
         inspirationImages (removeInspirationImage index s)
         = (firstn index (inspirationImages s) ++ skipn (S index) (inspirationImages s))%list
         /\ List.length (inspirationImages (removeInspirationImage index s))
            = if (index <? List.length (inspirationImages s))%nat
              then List.length (inspirationImages s) - 1
              else List.length (inspirationImages s)).
Proof.
  intros H. split; [|split].
  - revert s H. induction es as [|e es IH]; intros s H; [exact H|].
    cbn [edits fold_left]. apply IH. destruct e as [files|index]; cbn [edit].
    + now apply addFiles_bounded.
    + now apply removeInspirationImage_bounded.
  - intros files. unfold addFiles, handleInspirationChange.
    destruct (10 - Z.of_nat (List.length (inspirationImages s)) <=? 0)%Z eqn:E.
    + apply Z.leb_le in E. unfold readsComplete.
      replace (nth_error (reading s) (List.length (reading s))) with (@None (list File))
        by (symmetry; apply nth_error_None; lia).
      replace (10 - List.length (inspirationImages s)) with 0 by lia.
      cbn [firstn]. now rewrite app_nil_r.
    + apply Z.leb_gt in E. unfold readsComplete. cbn [reading inspirationImages].
      rewrite nth_error_last. cbn [inspirationImages].
      do 2 f_equal. lia.
  - intros index. cbn [removeInspirationImage inspirationImages].
    split; [apply remove_nth_split|apply remove_nth_length_exact].
Qed.

End Edits.

Lemma sequential_edits_stay_within_ten_witness :
  let es := [BriefingEdits.Add Sample.tenFiles; BriefingEdits.Add ["g0"];
             BriefingEdits.Delete 3; BriefingEdits.Add ["g1"; "g2"]] in
  List.length (BriefingStep.inspirationImages (BriefingEdits.edits es BriefingStep.initial)) <= 10.
Proof.
  intros es.
  apply (proj1 (sequential_edits_stay_within_ten es BriefingStep.initial
                  ltac:(cbn; lia))).
Defined.

(** ** What the steps do with a settled batch *)

Section Settled.

Import Gemini Batch Effects.

Lemma archiveCalls_app ms ms' :
  archiveCalls (ms ++ ms') = (archiveCalls ms ++ archiveCalls ms')%list.
Proof.
  induction ms as [|m ms IH]; [reflexivity|].
  destruct m; cbn [app archiveCalls]; try exact IH. now rewrite IH.
Qed.



(** X19.  What the proposal step shows once its three concept calls have
    settled: the first concept whose call came back with an image, or the
    "generation failed" screen when all three calls failed; each returned
    concept is handed once to [onArchive], under its own id. *)
Theorem proposal_screen_after_fetch
        (brief : BriefingData.t) (research : ResearchData.t)
        (a b c : ApiResult) (ua ub uc : string) :
  let concepts :=
    successful last_image
      [(a, conceptA brief a ua); (b, conceptB brief b ub); (c, conceptC brief c uc)] in
  let generated := generateArchitecturalConcepts brief research a b c ua ub uc in
  Carousel.render (Carousel.fetched generated Carousel.initial)
  = match concepts with
    | [] => Normal Carousel.GenerationFailed
    | first :: _ => Normal (Carousel.Showing first)
    end
  /\ map ArchivedImage.p_id
         (archiveCalls (ProposalStep.fetchOptions_resume StillMounted generated))
     = map (fun o => Some (GeneratedOption.id o)) concepts
  /\ (failures last_image [a; b; c] = 3 -> concepts = []).
Proof.
  intros concepts generated.
  assert (G : generated = Fulfilled concepts).
  { subst generated concepts.
    unfold generateArchitecturalConcepts, promiseA, promiseB, promiseC.
    rewrite !generateOne_fulfils. cbn [Promise_all].
    now rewrite (keep_with_image_successful a b c) by reflexivity. }
  split; [|split].
  - rewrite G. clearbody generated concepts.
    unfold Carousel.fetched, ProposalStep.fetchOptions_resume. cbn [await].
    rewrite fold_left_app.
    assert (A : forall l s, fold_left Carousel.apply (map ProposalStep.archiveConcept l) s = s).
    { induction l as [|o l IH]; intros s; [reflexivity|]. cbn [map fold_left]. apply IH. }
    rewrite A. cbn [fold_left Carousel.apply]. unfold Carousel.render, Carousel.currentOption.
    cbn. now destruct concepts.
  - rewrite G. clearbody generated concepts. clear G.
    unfold ProposalStep.fetchOptions_resume. cbn [await].
    rewrite archiveCalls_app. cbn [archiveCalls]. rewrite app_nil_r.
    induction concepts as [|o l IH]; [reflexivity|].
    cbn [map]. unfold ProposalStep.archiveConcept at 1.
    cbn [archiveCalls map ArchivedImage.p_id]. f_equal. exact IH.
  - subst concepts. unfold failures, successful. cbn [filter map fst snd].
    destruct (fails last_image a), (fails last_image b), (fails last_image c);
      cbn; intros F; try discriminate F; reflexivity.
Qed.

End Settled.

(** ** The conversation log in the export *)

Section ExportLog.

Import RefinementStep Effects.

Variable selectedOption : GeneratedOption.t.
Variable briefData : BriefingData.t.
Variable toLocaleTimeString : Z -> string.

Local Abbreviation initial := (RefinementStep.initial selectedOption).
Local Abbreviation step := (RefinementStep.step briefData toLocaleTimeString).
Local Abbreviation run := (RefinementStep.run briefData toLocaleTimeString).

Local Abbreviation notInit := (fun t : ChatMessage.t => ChatMessage.id t <> "init").

Lemma step_turns (s : State) (e : Event) :
  drawsNoInit e ->
  exists turns, chatHistory (step s e) = (chatHistory s ++ turns)%list /\ Forall notInit turns.
Proof.
  intros D. destruct e as [o u | api u1 u2 now | v u | value];
    cbn [RefinementStep.step]; cbn [drawsNoInit] in D.
  - unfold handleSend. destruct (rejected o s).
    + exists []. now rewrite app_nil_r.
    + eexists. split; [reflexivity|]. now repeat constructor.
  - destruct D as [D1 D2]. unfold handleSend_resume. destruct (inflight s) as [|r rest].
    + exists []. now rewrite app_nil_r.
    + destruct (refined briefData r api); (eexists; split; [reflexivity|]);
        now repeat constructor.
  - eexists. split; [reflexivity|]. now repeat constructor.
  - exists []. now rewrite app_nil_r.
Qed.

Lemma significantHistory_keeps (turns : list ChatMessage.t) :
  Forall notInit turns -> significantHistory turns = turns.
Proof.
  induction 1 as [|t turns Ht _ IH]; [reflexivity|].
  cbn [significantHistory filter]. apply String.eqb_neq in Ht. rewrite Ht. cbn [negb].
  f_equal. exact IH.
Qed.

(** X20.  The design-evolution page of the export lists every turn of the
    session but its greeting: when no id drawn for a turn is the string
    [init], the filter of [handleExportPDF] applied to the log of a session
    removes its first entry and nothing else. *)
Theorem export_lists_all_but_greeting (es : list Event) (now0 : Z) :
  Forall drawsNoInit es ->
  significantHistory (chatHistory (run es (initial now0)))
  = tl (chatHistory (run es (initial now0)))
  /\ List.length (significantHistory (chatHistory (run es (initial now0))))
     = List.length (chatHistory (run es (initial now0))) - 1.
Proof.
  assert (G : forall es s greeting rest,
             Forall drawsNoInit es ->
             chatHistory s = greeting :: rest -> ChatMessage.id greeting = "init" ->
             Forall notInit rest ->
             exists rest', chatHistory (run es s) = greeting :: rest' /\ Forall notInit rest').
  { clear es. induction es as [|e es IH]; intros s greeting rest D Hc Hg Hr.
    - now exists rest.
    - inversion D as [|e' es' De Des]; subst.
      destruct (step_turns s e De) as [turns [Ht Hf]].
      cbn [RefinementStep.run fold_left].
      apply (IH (step s e) greeting (rest ++ turns)%list Des).
      + now rewrite Ht, Hc.
      + exact Hg.
      + apply Forall_app. now split. }
  intros D.
  destruct (G es (initial now0) _ _ D eq_refl eq_refl (Forall_nil _)) as [rest [Hc Hr]].
  rewrite Hc. unfold significantHistory. cbn [filter ChatMessage.id tl List.length].
  change ("init" =? "init") with true. cbn [negb].
  change (filter (fun h => negb (ChatMessage.id h =? "init")) rest)
    with (significantHistory rest).
  rewrite (significantHistory_keeps rest Hr). split; [reflexivity|lia].
Qed.

End ExportLog.

Lemma export_lists_all_but_greeting_witness :
  let es :=
    [RefinementStep.Send (Some "make it night time") "u0";
     RefinementStep.Settle (Batch.png "NNNN") "u1" "u2" 7%Z] in
  let log :=
    RefinementStep.chatHistory
      (RefinementStep.run Sample.brief Sample.timeOfDay es
         (RefinementStep.initial Sample.option1 0%Z)) in
  Effects.significantHistory log = tl log
  /\ List.length (Effects.significantHistory log) = List.length log - 1.
Proof.
  intros es log.
  apply (export_lists_all_but_greeting Sample.option1 Sample.brief Sample.timeOfDay es 0%Z).
  repeat constructor; discriminate.
Defined.

Lemma concepts_and_angles_never_reject_witness :
  let concepts :=
    Batch.successful Gemini.last_image
      [(Batch.png "AAAA", Batch.conceptA Sample.brief (Batch.png "AAAA") "u1");
       (Gemini.ApiThrows "503", Batch.conceptB Sample.brief (Gemini.ApiThrows "503") "u2");
       (Batch.textOnly, Batch.conceptC Sample.brief Batch.textOnly "u3")] in
  Gemini.generateArchitecturalConcepts Sample.brief Sample.research
    (Batch.png "AAAA") (Gemini.ApiThrows "503") Batch.textOnly "u1" "u2" "u3"
  = Fulfilled concepts
  /\ List.length concepts = 1
  /\ (forall o, In o concepts -> GeneratedOption.imageUrl o <> "").
Proof.
  intros concepts.
  pose proof (concepts_and_angles_never_reject Sample.brief Sample.research
                "data:image/png;base64,AAAA"
                (Batch.png "AAAA") (Gemini.ApiThrows "503") Batch.textOnly "u1" "u2" "u3")
    as [H1 [H2 [H3 _]]].
  split; [exact H1|]. split; [exact H2|exact H3].
Defined.

Lemma hybrid_fulfils_iff_no_call_throws_witness :
  Gemini.generateHybridConcepts Sample.brief Sample.research [Sample.option1] "mix"
    (Batch.png "BBBB") Batch.textOnly (Batch.png "CCCC") "u1" "u2" "u3"
  = Fulfilled (Batch.successful Gemini.last_image
                 [(Batch.png "BBBB", Batch.hybrid1 "mix" (Batch.png "BBBB") "u1");
                  (Batch.textOnly, Batch.hybrid2 "mix" Batch.textOnly "u2");
                  (Batch.png "CCCC", Batch.hybrid3 "mix" (Batch.png "CCCC") "u3")]).
Proof.
  apply (proj2 (hybrid_fulfils_iff_no_call_throws Sample.brief Sample.research
                  [Sample.option1] "mix"
                  (Batch.png "BBBB") Batch.textOnly (Batch.png "CCCC") "u1" "u2" "u3"));
    reflexivity.
Defined.

Lemma last_image_is_first_of_reversed_witness :
  let image := {| Gemini.inlineData :=
                    Some {| Gemini.mimeType := "image/png"; Gemini.data := "AAAA" |} |} in
  let text := {| Gemini.inlineData := None |} in
  Gemini.last_image [text; text] = ""
  /\ Gemini.last_image [image; text] = Gemini.first_image (rev [image; text]).
Proof.
  intros image text. split.
  - apply (proj2 (proj1 (proj2 (last_image_is_first_of_reversed [text; text])))).
    intros p [<- | [<- | []]]; reflexivity.
  - apply (proj1 (last_image_is_first_of_reversed [image; text])).
Defined.

Lemma proposal_screen_after_fetch_witness :
  Batch.successful Gemini.last_image
    [(Gemini.ApiThrows "503", Batch.conceptA Sample.brief (Gemini.ApiThrows "503") "u1");
     (Batch.textOnly, Batch.conceptB Sample.brief Batch.textOnly "u2");
     (Gemini.ApiThrows "503", Batch.conceptC Sample.brief (Gemini.ApiThrows "503") "u3")]
  = [].
Proof.
  apply (proj2 (proj2 (proposal_screen_after_fetch Sample.brief Sample.research
                         (Gemini.ApiThrows "503") Batch.textOnly (Gemini.ApiThrows "503")
                         "u1" "u2" "u3"))).
  reflexivity.
Defined.
